(** * LumiCloneApp: the Bluetooth adapter module and the onboarding screen

    A shallow embedding of [utils/bluetooth.ts] (module [Bluetooth]) and of
    the connection state machine of the onboarding screen
    (module [BluetoothScreen]), followed by the properties of the
    specification that concern them.

    Every exported function of the adapter is [async] or synchronous code
    over five module-scoped variables.  A call is modelled as a run: the
    answers of the Web Bluetooth platform to the calls the function awaits
    are given to it as an argument, and the run yields a completion
    (returned value or thrown error) together with the new state.
    [connectToArduino] and [reconnectToArduino], which go on after their
    awaits, are given twice: uninterrupted, and with what the listeners and
    other calls do to the state while the call is suspended at each await.
    Console output is not modelled. *)

From stdpp Require Import gmap strings list.
From Stdlib Require Import ZArith Lia.

(** ** The platform: errors, GATT objects, text encoding *)

Module Platform.

(** A thrown value: an [Error] built by the code with [new Error(message)],
    or the rejection of a platform promise (a [DOMException] or a
    [TypeError], with its name and message). *)
Inductive JsError : Type :=
| NewError (message : string)
| Rejection (name message : string).

(** [err.message] *)
Definition message (e : JsError) : string :=
  match e with
  | NewError m => m
  | Rejection _ m => m
  end.

(** How a call completes. *)
Inductive Completion (A : Type) : Type :=
| Return (a : A)
| Throw (e : JsError).
Arguments Return {A} a.
Arguments Throw {A} e.

(** How a promise of the platform settles. A rejection is a platform
    exception (a [DOMException], with its name and message): never one of
    the [Error] objects this code builds. *)
Inductive Answer (A : Type) : Type :=
| Resolved (a : A)
| Rejected (name message : string).
Arguments Resolved {A} a.
Arguments Rejected {A} name message.

(** What [await] makes of a settled promise. *)
Definition awaited {A} (answer : Answer A) : Completion A :=
  match answer with
  | Resolved a => Return a
  | Rejected n m => Throw (Rejection n m)
  end.

(** The object [requestDevice] resolves to, as far as the code reads it:
    [id], [name] (which may be undefined) and [gatt.connected]. *)
Record PlatformDevice : Type := {
  dev_id : string;
  dev_name : option string;
  gatt_connected : bool
}.

(** Opaque platform objects, told apart by a reference number. *)
Record GattServer : Type := { server_ref : N }.
Record GattService : Type := { service_ref : N }.
Record GattCharacteristic : Type := { characteristic_ref : N }.

(** A JavaScript string whose content is transcoded: its UTF-16 code
    units.  Text that is only passed along (identifiers, names, messages)
    is a [string]. *)
Definition JsString : Type := list Z.

Section Encoding.
Local Open Scope Z_scope.

Definition is_high_surrogate (u : Z) : bool := (0xD800 <=? u) && (u <=? 0xDBFF).
Definition is_low_surrogate (u : Z) : bool := (0xDC00 <=? u) && (u <=? 0xDFFF).

(** Code units to scalar values; a surrogate without its partner becomes
    U+FFFD, as [TextEncoder] does. *)
Fixpoint scalar_values (s : JsString) : list Z :=
  match s with
  | [] => []
  | u :: rest =>
      if is_high_surrogate u then
        match rest with
        | v :: rest' =>
            if is_low_surrogate v
            then (0x10000 + Z.shiftl (u - 0xD800) 10 + (v - 0xDC00)) :: scalar_values rest'
            else 0xFFFD :: scalar_values rest
        | [] => [0xFFFD]
        end
      else if is_low_surrogate u then 0xFFFD :: scalar_values rest
      else u :: scalar_values rest
  end.

Definition continuation (c : Z) (shift : Z) : Z :=
  Z.lor 0x80 (Z.land (Z.shiftr c shift) 0x3F).

(** The UTF-8 bytes of one scalar value. *)
Definition utf8_of_scalar (c : Z) : list Z :=
  if c <? 0x80 then [c]
  else if c <? 0x800 then [Z.lor 0xC0 (Z.shiftr c 6); continuation c 0]
  else if c <? 0x10000 then
    [Z.lor 0xE0 (Z.shiftr c 12); continuation c 6; continuation c 0]
  else
    [Z.lor 0xF0 (Z.shiftr c 18); continuation c 12; continuation c 6; continuation c 0].

(** [new TextEncoder().encode(data)] *)
Definition TextEncoder_encode (data : JsString) : list Z :=
  flat_map utf8_of_scalar (scalar_values data).

End Encoding.

End Platform.

(** ** utils/bluetooth.ts *)

Module Bluetooth.
Import Platform.

(** [interface BluetoothDevice]: the Device Record handed to callers. *)
Record BluetoothDevice : Type := {
  id : string;
  name : string;
  connected : bool
}.

Definition ARDUINO_SERVICE_UUID : string := "0000ffe0-0000-1000-8000-00805f9b34fb".
Definition ARDUINO_CHARACTERISTIC_UUID : string := "0000ffe1-0000-1000-8000-00805f9b34fb".

(** The argument a registered handler is called with: [onConnected]
    receives the record, [onDisconnected] nothing, [onError] the error and
    [onDataReceived] the decoded text. *)
Inductive CallbackArg : Type :=
| ArgDevice (device : BluetoothDevice)
| ArgNone
| ArgError (error : JsError)
| ArgData (data : string).

(** What a run does that its caller or the platform can observe, in the
    order it happens: calls into the platform and calls of registered
    handlers. *)
Inductive Event : Type :=
| RequestDevice
| ListenDisconnected (device : string)
| GattConnect (device : string)
| GattDisconnect (device : string)
| GetPrimaryService (server : GattServer) (uuid : string)
| GetCharacteristic (service : GattService) (uuid : string)
| StartNotifications (characteristic : GattCharacteristic)
| ListenValueChanged (characteristic : GattCharacteristic)
| WriteValue (characteristic : GattCharacteristic) (dataArray : list Z)
| Invoked (key : string) (arg : CallbackArg).

(** What the platform answers to the GATT calls of one connection attempt;
    an answer is consulted only if the run reaches its call. *)
Record GattAnswers : Type := {
  gatt_connect : Answer GattServer;
  getPrimaryService : Answer GattService;
  getCharacteristic : Answer GattCharacteristic;
  startNotifications : Answer unit
}.

Record ConnectAnswers : Type := {
  requestDevice : Answer PlatformDevice;
  gatt : GattAnswers
}.

(** What reading a property of [null] throws. *)
Definition TypeError_null : JsError :=
  Rejection "TypeError" "Cannot read properties of null".

Section WithHost.
(** The state of the application that the registered handlers update
    (React state, in this repository). *)
Context {Host : Type}.

(** The value under a key of the [callbacks] object: a key can be
    present and hold [undefined]. Handlers return normally and do not
    call back into the adapter (those of this repository only set React
    state). *)
Inductive JsSlot : Type :=
| Undefined
| Fn (f : CallbackArg → Host → Host).

(** [navigator.bluetooth], the five module-scoped variables, the host
    state and the events so far. *)
Record World : Type := {
  navigator_bluetooth : bool;
  bluetoothDevice : option PlatformDevice;
  bluetoothServer : option GattServer;
  bluetoothService : option GattService;
  bluetoothCharacteristic : option GattCharacteristic;
  callbacks : gmap string JsSlot;
  host : Host;
  log : list Event
}.

Definition set_bluetoothDevice (d : option PlatformDevice) (w : World) : World :=
  {| navigator_bluetooth := navigator_bluetooth w; bluetoothDevice := d;
     bluetoothServer := bluetoothServer w; bluetoothService := bluetoothService w;
     bluetoothCharacteristic := bluetoothCharacteristic w;
     callbacks := callbacks w; host := host w; log := log w |}.

Definition set_bluetoothServer (s : option GattServer) (w : World) : World :=
  {| navigator_bluetooth := navigator_bluetooth w; bluetoothDevice := bluetoothDevice w;
     bluetoothServer := s; bluetoothService := bluetoothService w;
     bluetoothCharacteristic := bluetoothCharacteristic w;
     callbacks := callbacks w; host := host w; log := log w |}.

Definition set_bluetoothService (s : option GattService) (w : World) : World :=
  {| navigator_bluetooth := navigator_bluetooth w; bluetoothDevice := bluetoothDevice w;
     bluetoothServer := bluetoothServer w; bluetoothService := s;
     bluetoothCharacteristic := bluetoothCharacteristic w;
     callbacks := callbacks w; host := host w; log := log w |}.

Definition set_bluetoothCharacteristic (c : option GattCharacteristic) (w : World) : World :=
  {| navigator_bluetooth := navigator_bluetooth w; bluetoothDevice := bluetoothDevice w;
     bluetoothServer := bluetoothServer w; bluetoothService := bluetoothService w;
     bluetoothCharacteristic := c;
     callbacks := callbacks w; host := host w; log := log w |}.

Definition set_callbacks (c : gmap string JsSlot) (w : World) : World :=
  {| navigator_bluetooth := navigator_bluetooth w; bluetoothDevice := bluetoothDevice w;
     bluetoothServer := bluetoothServer w; bluetoothService := bluetoothService w;
     bluetoothCharacteristic := bluetoothCharacteristic w;
     callbacks := c; host := host w; log := log w |}.

Definition set_host (h : Host) (w : World) : World :=
  {| navigator_bluetooth := navigator_bluetooth w; bluetoothDevice := bluetoothDevice w;
     bluetoothServer := bluetoothServer w; bluetoothService := bluetoothService w;
     bluetoothCharacteristic := bluetoothCharacteristic w;
     callbacks := callbacks w; host := h; log := log w |}.

Definition emit (e : Event) (w : World) : World :=
  {| navigator_bluetooth := navigator_bluetooth w; bluetoothDevice := bluetoothDevice w;
     bluetoothServer := bluetoothServer w; bluetoothService := bluetoothService w;
     bluetoothCharacteristic := bluetoothCharacteristic w;
     callbacks := callbacks w; host := host w; log := log w ++ [e] |}.

(** The module as loaded: every handle [null], [callbacks = {}]. *)
Definition initial (supported : bool) (h : Host) : World :=
  {| navigator_bluetooth := supported; bluetoothDevice := None;
     bluetoothServer := None; bluetoothService := None;
     bluetoothCharacteristic := None;
     callbacks := ∅; host := h; log := [] |}.

(** *** Runs: state passing with thrown errors *)

Definition M (A : Type) : Type := World → Completion A * World.

Definition ret {A} (a : A) : M A := λ w, (Return a, w).

Definition bind {A B} (m : M A) (k : A → M B) : M B := λ w,
  match m w with
  | (Return a, w') => k a w'
  | (Throw e, w') => (Throw e, w')
  end.

Definition throw {A} (e : JsError) : M A := λ w, (Throw e, w).

(** [try { body } catch (error) { handler }] *)
Definition try_catch {A} (body : M A) (handler : JsError → M A) : M A := λ w,
  match body w with
  | (Return a, w') => (Return a, w')
  | (Throw e, w') => handler e w'
  end.

Definition gets {A} (f : World → A) : M A := λ w, (Return (f w), w).
Definition modify (f : World → World) : M unit := λ w, (Return tt, f w).

(** [await] of a platform call: the call happens, then the run goes on
    with the value or throws the rejection. *)
Definition await {A} (call : Event) (answer : Answer A) : M A := λ w,
  (awaited answer, emit call w).

(** Reading through a module variable that may hold [null]. *)
Definition deref {A} (var : World → option A) : M A := λ w,
  match var w with
  | Some a => (Return a, w)
  | None => (Throw TypeError_null, w)
  end.

(** [callbacks.key?.(arg)]: the handler under [key] runs if there is
    one; an absent key and [undefined] make the call a no-op. *)
Definition notify (key : string) (arg : CallbackArg) (w : World) : World :=
  match callbacks w !! key with
  | Some (Fn f) => emit (Invoked key arg) (set_host (f arg (host w)) w)
  | _ => w
  end.

Definition invoke (key : string) (arg : CallbackArg) : M unit :=
  modify (notify key arg).

End WithHost.

Arguments JsSlot : clear implicits.
Arguments World : clear implicits.
Arguments M : clear implicits.

#[global] Instance M_ret {Host} : MRet (M Host) := @ret Host.
#[global] Instance M_bind {Host} : MBind (M Host) := λ A B k m, bind m k.

(** The errors the module builds itself, under the names the specification
    gives to their kinds. *)
Definition NotSupported : JsError := NewError "Bluetooth no está soportado en este navegador".
Definition ApiUnavailable : JsError := NewError "Web Bluetooth API is not available in this browser.".
Definition NotConnected : JsError := NewError "No hay conexión con el dispositivo".
Definition NoPriorDevice : JsError := NewError "No hay dispositivo previo para reconectar".

(** [bluetoothDevice.name || 'Arduino']: undefined and the empty string
    are falsy. *)
Definition name_or_Arduino (n : option string) : string :=
  match n with
  | Some EmptyString | None => "Arduino"
  | Some s => s
  end.

(** The platform turns [gatt.connected] of a device on or off. *)
Definition with_gatt_connected (b : bool) (d : PlatformDevice) : PlatformDevice :=
  {| dev_id := dev_id d; dev_name := dev_name d; gatt_connected := b |}.

Section Adapter.
Context {Host : Type}.

(** [callbacks = { ...callbacks, ...newCallbacks }]: on a key both
    objects have, the later spread wins. *)
Definition setBluetoothCallbacks (newCallbacks : gmap string (JsSlot Host))
    (w : World Host) : World Host :=
  set_callbacks (newCallbacks ∪ callbacks w) w.

Definition isBluetoothSupported (w : World Host) : bool :=
  if negb (navigator_bluetooth w) then false else true.

(** The four assignments of [null] that end [disconnectFromArduino] and
    [onDisconnected]. *)
Definition clear_handles (w : World Host) : World Host :=
  set_bluetoothCharacteristic None
    (set_bluetoothService None
      (set_bluetoothServer None
        (set_bluetoothDevice None w))).

(** The listener of [gattserverdisconnected]. *)
Definition onDisconnected : M Host unit :=
  invoke "onDisconnected" ArgNone;;
  modify clear_handles.

(** The listener of [characteristicvaluechanged]; [data] is the text
    that [TextDecoder] yields for the value of the event. *)
Definition handleCharacteristicValueChanged (data : string) : M Host unit :=
  invoke "onDataReceived" (ArgData data).

(** [await bluetoothDevice.gatt.connect()]; when it resolves the
    platform has set [gatt.connected] of that device. *)
Definition gatt_connect_held (answer : Answer GattServer) : M Host GattServer :=
  d ← deref bluetoothDevice;
  server ← await (GattConnect (dev_id d)) answer;
  modify (set_bluetoothDevice (Some (with_gatt_connected true d)));;
  mret server.

(** [bluetoothDevice.gatt.disconnect()]: the platform clears
    [gatt.connected]; [event_fires] tells whether it dispatches
    [gattserverdisconnected] before the call returns. *)
Definition gatt_disconnect_held (d : PlatformDevice) (event_fires : bool) : M Host unit :=
  modify (emit (GattDisconnect (dev_id d)));;
  modify (set_bluetoothDevice (Some (with_gatt_connected false d)));;
  if event_fires then onDisconnected else mret tt.

Definition connectToArduino (p : ConnectAnswers) : M Host BluetoothDevice :=
  supported ← gets isBluetoothSupported;
  if negb supported then
    let error := NotSupported in
    invoke "onError" (ArgError error);;
    throw error
  else
    try_catch
      (bt ← gets navigator_bluetooth;
       (if negb bt then
          let error := ApiUnavailable in
          invoke "onError" (ArgError error);;
          throw error
        else mret tt);;
       chosen ← await RequestDevice (requestDevice p);
       modify (set_bluetoothDevice (Some chosen));;
       d ← deref bluetoothDevice;
       modify (emit (ListenDisconnected (dev_id d)));;
       server ← gatt_connect_held (gatt_connect (gatt p));
       modify (set_bluetoothServer (Some server));;
       server ← deref bluetoothServer;
       service ← await (GetPrimaryService server ARDUINO_SERVICE_UUID)
                       (getPrimaryService (gatt p));
       modify (set_bluetoothService (Some service));;
       service ← deref bluetoothService;
       characteristic ← await (GetCharacteristic service ARDUINO_CHARACTERISTIC_UUID)
                              (getCharacteristic (gatt p));
       modify (set_bluetoothCharacteristic (Some characteristic));;
       characteristic ← deref bluetoothCharacteristic;
       await (StartNotifications characteristic) (startNotifications (gatt p));;
       characteristic ← deref bluetoothCharacteristic;
       modify (emit (ListenValueChanged characteristic));;
       d ← deref bluetoothDevice;
       let device :=
         {| id := dev_id d; name := name_or_Arduino (dev_name d); connected := true |} in
       invoke "onConnected" (ArgDevice device);;
       mret device)
      (λ error,
         invoke "onError" (ArgError error);;
         throw error).

Definition disconnectFromArduino (event_fires : bool) : M Host unit :=
  held ← gets bluetoothDevice;
  match held with
  | Some d => if gatt_connected d then gatt_disconnect_held d event_fires else mret tt
  | None => mret tt
  end;;
  modify clear_handles.

Definition sendToArduino (data : JsString) (writeValue : Answer unit) : M Host unit :=
  held ← gets bluetoothCharacteristic;
  match held with
  | None => throw NotConnected
  | Some _ =>
      try_catch
        (let dataArray := TextEncoder_encode data in
         characteristic ← deref bluetoothCharacteristic;
         await (WriteValue characteristic dataArray) writeValue)
        (λ error, throw error)
  end.

Definition getCurrentDevice (w : World Host) : option BluetoothDevice :=
  match bluetoothDevice w with
  | None => None
  | Some d =>
      Some {| id := dev_id d; name := name_or_Arduino (dev_name d);
              connected := gatt_connected d || false |}
  end.

Definition reconnectToArduino (g : GattAnswers) : M Host BluetoothDevice :=
  held ← gets bluetoothDevice;
  match held with
  | None => throw NoPriorDevice
  | Some _ =>
      try_catch
        (server ← gatt_connect_held (gatt_connect g);
         modify (set_bluetoothServer (Some server));;
         server ← deref bluetoothServer;
         service ← await (GetPrimaryService server ARDUINO_SERVICE_UUID)
                         (getPrimaryService g);
         modify (set_bluetoothService (Some service));;
         service ← deref bluetoothService;
         characteristic ← await (GetCharacteristic service ARDUINO_CHARACTERISTIC_UUID)
                                (getCharacteristic g);
         modify (set_bluetoothCharacteristic (Some characteristic));;
         characteristic ← deref bluetoothCharacteristic;
         await (StartNotifications characteristic) (startNotifications g);;
         characteristic ← deref bluetoothCharacteristic;
         modify (emit (ListenValueChanged characteristic));;
         d ← deref bluetoothDevice;
         let device :=
           {| id := dev_id d; name := name_or_Arduino (dev_name d); connected := true |} in
         invoke "onConnected" (ArgDevice device);;
         mret device)
        (λ error,
           invoke "onError" (ArgError error);;
           throw error)
  end.

(** *** Sequences of operations

    What can happen to the module between two moments: a call of an
    exported function, with the answers of the platform, or an event
    the platform dispatches to one of the two listeners. *)
Inductive Op : Type :=
| Connect (p : ConnectAnswers)
| Reconnect (g : GattAnswers)
| Disconnect (event_fires : bool)
| Send (data : JsString) (writeValue : Answer unit)
| SetCallbacks (newCallbacks : gmap string (JsSlot Host))
| GattServerDisconnected
| CharacteristicValueChanged (data : string).

Definition step (w : World Host) (o : Op) : World Host :=
  match o with
  | Connect p => snd (connectToArduino p w)
  | Reconnect g => snd (reconnectToArduino g w)
  | Disconnect event_fires => snd (disconnectFromArduino event_fires w)
  | Send data writeValue => snd (sendToArduino data writeValue w)
  | SetCallbacks newCallbacks => setBluetoothCallbacks newCallbacks w
  | GattServerDisconnected => snd (onDisconnected w)
  | CharacteristicValueChanged data => snd (handleCharacteristicValueChanged data w)
  end.

Definition run (ops : list Op) (w : World Host) : World Host :=
  foldl step w ops.

(** Whether an event is the call of a registered handler (the others
    are calls into the platform). *)
Definition is_handler_call (e : Event) : bool :=
  match e with
  | Invoked _ _ => true
  | _ => false
  end.

(** What a run did between [w] and [v] when it only called the
    platform: same host state, same registry, and a log longer by
    platform calls. *)
Definition platform_only (w v : World Host) : Prop :=
  host v = host w ∧ callbacks v = callbacks w ∧
  ∃ calls, log v = log w ++ calls ∧ Forall (λ c, is_handler_call c = false) calls.

(** The four connection handles are [null]. *)
Definition handles_null (w : World Host) : Prop :=
  bluetoothDevice w = None ∧ bluetoothServer w = None ∧
  bluetoothService w = None ∧ bluetoothCharacteristic w = None.

(** [isConnected()]: [bluetoothDevice && bluetoothDevice.gatt.connected].
    Without a device the expression is [null] ([None] here), whatever the
    declared return type says. *)
Definition isConnected (w : World Host) : option bool :=
  match bluetoothDevice w with
  | None => None
  | Some d => Some (gatt_connected d)
  end.

(** Whether an operation is a call of [setBluetoothCallbacks]. *)
Definition registers (o : Op) : bool :=
  match o with
  | SetCallbacks _ => true
  | _ => false
  end.

(** *** Calls that are suspended

    [connectToArduino] and [reconnectToArduino] give up control at every
    [await]. Until the platform settles the promise, the listeners of the
    module and other calls run, and they assign the same module variables.
    A suspension is what they do to the state in the meantime; the
    definitions above are the runs in which nothing happens then. *)
Record GattSuspensions : Type := {
  during_gatt_connect : World Host → World Host;
  during_getPrimaryService : World Host → World Host;
  during_getCharacteristic : World Host → World Host;
  during_startNotifications : World Host → World Host
}.

Record ConnectSuspensions : Type := {
  during_requestDevice : World Host → World Host;
  during_gatt : GattSuspensions
}.

(** Nothing runs while the call is suspended. *)
Definition undisturbed_gatt : GattSuspensions :=
  {| during_gatt_connect := λ w, w; during_getPrimaryService := λ w, w;
     during_getCharacteristic := λ w, w; during_startNotifications := λ w, w |}.

Definition undisturbed : ConnectSuspensions :=
  {| during_requestDevice := λ w, w; during_gatt := undisturbed_gatt |}.

(** [await] of a platform call during which [during] runs. *)
Definition await_during {A} (during : World Host → World Host) (call : Event)
    (answer : Answer A) : M Host A := λ w,
  (awaited answer, during (emit call w)).

(** When [gatt.connect()] of a device resolves, the platform has set
    [gatt.connected] of that device object; the module sees it if its
    variable still refers to that device. *)
Definition gatt_became_connected (device : string) (w : World Host) : World Host :=
  match bluetoothDevice w with
  | Some d =>
      if String.eqb (dev_id d) device
      then set_bluetoothDevice (Some (with_gatt_connected true d)) w
      else w
  | None => w
  end.

(** [await bluetoothDevice.gatt.connect()]: the variable is read before
    the call is suspended. *)
Definition gatt_connect_held_during (during : World Host → World Host)
    (answer : Answer GattServer) : M Host GattServer :=
  d ← deref bluetoothDevice;
  server ← await_during during (GattConnect (dev_id d)) answer;
  modify (gatt_became_connected (dev_id d));;
  mret server.

(** [connectToArduino], with what runs at each of its five [await]s. A
    variable read in the statement that assigns it is the value assigned;
    the reads of lines 97 and 100 to 101 come after the last [await]. *)
Definition connectToArduino_interleaved (s : ConnectSuspensions) (p : ConnectAnswers)
    : M Host BluetoothDevice :=
  supported ← gets isBluetoothSupported;
  if negb supported then
    let error := NotSupported in
    invoke "onError" (ArgError error);;
    throw error
  else
    try_catch
      (bt ← gets navigator_bluetooth;
       (if negb bt then
          let error := ApiUnavailable in
          invoke "onError" (ArgError error);;
          throw error
        else mret tt);;
       chosen ← await_during (during_requestDevice s) RequestDevice (requestDevice p);
       modify (set_bluetoothDevice (Some chosen));;
       d ← deref bluetoothDevice;
       modify (emit (ListenDisconnected (dev_id d)));;
       server ← gatt_connect_held_during (during_gatt_connect (during_gatt s))
                  (gatt_connect (gatt p));
       modify (set_bluetoothServer (Some server));;
       server ← deref bluetoothServer;
       service ← await_during (during_getPrimaryService (during_gatt s))
                   (GetPrimaryService server ARDUINO_SERVICE_UUID)
                   (getPrimaryService (gatt p));
       modify (set_bluetoothService (Some service));;
       service ← deref bluetoothService;
       characteristic ← await_during (during_getCharacteristic (during_gatt s))
                          (GetCharacteristic service ARDUINO_CHARACTERISTIC_UUID)
                          (getCharacteristic (gatt p));
       modify (set_bluetoothCharacteristic (Some characteristic));;
       characteristic ← deref bluetoothCharacteristic;
       await_during (during_startNotifications (during_gatt s))
         (StartNotifications characteristic) (startNotifications (gatt p));;
       characteristic ← deref bluetoothCharacteristic;
       modify (emit (ListenValueChanged characteristic));;
       d ← deref bluetoothDevice;
       let device :=
         {| id := dev_id d; name := name_or_Arduino (dev_name d); connected := true |} in
       invoke "onConnected" (ArgDevice device);;
       mret device)
      (λ error,
         invoke "onError" (ArgError error);;
         throw error).

(** [reconnectToArduino], with what runs at each of its four [await]s. *)
Definition reconnectToArduino_interleaved (s : GattSuspensions) (g : GattAnswers)
    : M Host BluetoothDevice :=
  held ← gets bluetoothDevice;
  match held with
  | None => throw NoPriorDevice
  | Some _ =>
      try_catch
        (server ← gatt_connect_held_during (during_gatt_connect s) (gatt_connect g);
         modify (set_bluetoothServer (Some server));;
         server ← deref bluetoothServer;
         service ← await_during (during_getPrimaryService s)
                     (GetPrimaryService server ARDUINO_SERVICE_UUID)
                     (getPrimaryService g);
         modify (set_bluetoothService (Some service));;
         service ← deref bluetoothService;
         characteristic ← await_during (during_getCharacteristic s)
                            (GetCharacteristic service ARDUINO_CHARACTERISTIC_UUID)
                            (getCharacteristic g);
         modify (set_bluetoothCharacteristic (Some characteristic));;
         characteristic ← deref bluetoothCharacteristic;
         await_during (during_startNotifications s)
           (StartNotifications characteristic) (startNotifications g);;
         characteristic ← deref bluetoothCharacteristic;
         modify (emit (ListenValueChanged characteristic));;
         d ← deref bluetoothDevice;
         let device :=
           {| id := dev_id d; name := name_or_Arduino (dev_name d); connected := true |} in
         invoke "onConnected" (ArgDevice device);;
         mret device)
        (λ error,
           invoke "onError" (ArgError error);;
           throw error)
  end.

(** What runs during a suspension leaves the device handle, or the four
    handles, as they are (a notification, a registration, a write). *)
Definition keeps_device (during : World Host → World Host) : Prop :=
  ∀ v, bluetoothDevice (during v) = bluetoothDevice v.

Definition keeps_handles (during : World Host → World Host) : Prop :=
  ∀ v, bluetoothDevice (during v) = bluetoothDevice v ∧
       bluetoothServer (during v) = bluetoothServer v ∧
       bluetoothService (during v) = bluetoothService v ∧
       bluetoothCharacteristic (during v) = bluetoothCharacteristic v.

(** The last thing to run during a suspension is the listener of
    [gattserverdisconnected]: the link was lost. *)
Definition ends_with_link_loss (during : World Host → World Host) : Prop :=
  ∃ before : World Host → World Host, ∀ v, during v = snd (onDisconnected (before v)).

End Adapter.

Arguments Op : clear implicits.
Arguments GattSuspensions : clear implicits.
Arguments ConnectSuspensions : clear implicits.

End Bluetooth.

(** ** The onboarding screen: its connection state machine *)

Module BluetoothScreen.
Import Platform Bluetooth.

(** [type ConnectionState] *)
Inductive ConnectionState : Type :=
| Idle
| Searching
| Connecting
| Connected
| Error.

(** The four [useState] cells of the component, and [history]: every value
    [connectionState] has been given, oldest first. *)
Record Screen : Type := {
  connectionState : ConnectionState;
  connectedDevice : option BluetoothDevice;
  error : option string;
  bluetoothAvailable : bool;
  history : list ConnectionState
}.

Definition setConnectionState (s : ConnectionState) (scr : Screen) : Screen :=
  {| connectionState := s; connectedDevice := connectedDevice scr;
     error := error scr; bluetoothAvailable := bluetoothAvailable scr;
     history := history scr ++ [s] |}.

Definition setConnectedDevice (d : option BluetoothDevice) (scr : Screen) : Screen :=
  {| connectionState := connectionState scr; connectedDevice := d;
     error := error scr; bluetoothAvailable := bluetoothAvailable scr;
     history := history scr |}.

Definition setError (e : option string) (scr : Screen) : Screen :=
  {| connectionState := connectionState scr; connectedDevice := connectedDevice scr;
     error := e; bluetoothAvailable := bluetoothAvailable scr;
     history := history scr |}.

Definition setBluetoothAvailable (b : bool) (scr : Screen) : Screen :=
  {| connectionState := connectionState scr; connectedDevice := connectedDevice scr;
     error := error scr; bluetoothAvailable := b;
     history := history scr |}.

(** The state the component is created with. *)
Definition first_render : Screen :=
  {| connectionState := Idle; connectedDevice := None; error := None;
     bluetoothAvailable := true; history := [Idle] |}.

(** The three handlers the component registers. A handler is only ever
    called with the argument of its key; on another it does nothing. *)
Definition onConnected (arg : CallbackArg) (scr : Screen) : Screen :=
  match arg with
  | ArgDevice device =>
      setError None (setConnectionState Connected (setConnectedDevice (Some device) scr))
  | _ => scr
  end.

Definition onDisconnected (arg : CallbackArg) (scr : Screen) : Screen :=
  setConnectedDevice None (setConnectionState Idle scr).

Definition onError (arg : CallbackArg) (scr : Screen) : Screen :=
  match arg with
  | ArgError err => setConnectionState Error (setError (Some (message err)) scr)
  | _ => scr
  end.

(** A state setter called from an asynchronous function of the component. *)
Definition setState (f : Screen → Screen) : M Screen unit :=
  modify (λ w, set_host (f (host w)) w).

(** The two effects that run once, when the component mounts. *)
Definition mount (w : World Screen) : World Screen :=
  let w := set_host (setBluetoothAvailable (isBluetoothSupported w) (host w)) w in
  setBluetoothCallbacks
    {[ "onConnected" := Fn onConnected;
       "onDisconnected" := Fn onDisconnected;
       "onError" := Fn onError ]} w.

(** The effect that depends on [connectionState]: the timer that calls
    [onNext] is pending exactly while the state is [connected]. *)
Definition auto_advance_pending (scr : Screen) : bool :=
  match connectionState scr with
  | Connected => true
  | _ => false
  end.

Definition handleConnect (p : ConnectAnswers) : M Screen unit :=
  setState (setConnectionState Searching);;
  setState (setError None);;
  try_catch
    (connectToArduino p;;
     setState (setConnectionState Connecting))
    (λ err,
       setState (setError (Some (message err)));;
       setState (setConnectionState Error)).

Definition handleDisconnect (event_fires : bool) : M Screen unit :=
  disconnectFromArduino event_fires;;
  setState (setConnectionState Idle);;
  setState (setConnectedDevice None).

(** The screen just after it mounted on a freshly loaded module. *)
Definition mounted (supported : bool) : World Screen :=
  mount (initial supported first_render).

(** The two lines of text under the illustration. *)
Definition getStatusText (scr : Screen) : string :=
  match connectionState scr with
  | Idle => "Ready to connect"
  | Searching => "Searching for devices..."
  | Connecting => "Connecting to Lumi..."
  | Connected => "Connected ✨"
  | Error => "Connection failed"
  end.

(** [error || "Please try again"]: [null] and the empty string are falsy. *)
Definition getStatusSubtext (scr : Screen) : string :=
  match connectionState scr with
  | Idle => "Make sure your Lumi is nearby and powered on"
  | Searching => "Select your device from the list"
  | Connecting => "Establishing secure connection..."
  | Connected =>
      match connectedDevice scr with
      | Some d => "Connected to " +:+ name d
      | None => "Your Lumi is ready to glow"
      end
  | Error =>
      match error scr with
      | Some EmptyString | None => "Please try again"
      | Some text => text
      end
  end.

End BluetoothScreen.

(** ** Sample values, for the concrete runs below *)

Module Examples.
Import Platform Bluetooth.

Definition lumi : PlatformDevice :=
  {| dev_id := "lumi-01"; dev_name := Some "Lumi"; gatt_connected := false |}.

Definition server1 : GattServer := {| server_ref := 1 |}.
Definition service1 : GattService := {| service_ref := 2 |}.
Definition characteristic1 : GattCharacteristic := {| characteristic_ref := 3 |}.

Definition gatt_succeeds : GattAnswers :=
  {| gatt_connect := Resolved server1; getPrimaryService := Resolved service1;
     getCharacteristic := Resolved characteristic1; startNotifications := Resolved tt |}.

Definition all_succeed : ConnectAnswers :=
  {| requestDevice := Resolved lumi; gatt := gatt_succeeds |}.

(** The device is chosen and every GATT step succeeds but the last: the
    characteristic refuses the subscription. *)
Definition subscribe_rejected : ConnectAnswers :=
  {| requestDevice := Resolved lumi;
     gatt := {| gatt_connect := Resolved server1; getPrimaryService := Resolved service1;
                getCharacteristic := Resolved characteristic1;
                startNotifications := Rejected "NotSupportedError" "GATT operation not permitted." |} |}.

(** The user closes the chooser. *)
Definition chooser_dismissed : ConnectAnswers :=
  {| requestDevice := Rejected "NotFoundError" "User cancelled the requestDevice() chooser.";
     gatt := gatt_succeeds |}.

(** The JavaScript string ["48"]. *)
Definition text_48 : JsString := [52; 56]%Z.

(** A host that only keeps a journal of the handler calls it receives. *)
Definition journal (key : string) : CallbackArg → list string → list string :=
  λ _ entries, entries ++ [key].

Definition registers_onConnected : gmap string (JsSlot (list string)) :=
  {[ "onConnected" := Fn (journal "onConnected") ]}.

Definition registers_onError : gmap string (JsSlot (list string)) :=
  {[ "onError" := Fn (journal "onError") ]}.

Definition registers_onDisconnected : gmap string (JsSlot (list string)) :=
  {[ "onDisconnected" := Fn (journal "onDisconnected") ]}.

(** A freshly loaded module in a browser with Web Bluetooth, and the same
    with an [onError] handler registered. *)
Definition loaded : World (list string) := initial true [].
Definition listening : World (list string) := setBluetoothCallbacks registers_onError loaded.

End Examples.

(** ** contexts/BluetoothContext.tsx *)

Module BluetoothContext.
Import Platform Bluetooth.

(** The three [useState] cells of [BluetoothProvider]; the context value
    publishes [device], [connected] (as [isConnected]) and
    [lastReceivedData]. *)
Record Provider : Type := {
  device : option BluetoothDevice;
  connected : bool;
  lastReceivedData : option string
}.

Definition setDevice (d : option BluetoothDevice) (s : Provider) : Provider :=
  {| device := d; connected := connected s; lastReceivedData := lastReceivedData s |}.

Definition setConnected (b : bool) (s : Provider) : Provider :=
  {| device := device s; connected := b; lastReceivedData := lastReceivedData s |}.

Definition setLastReceivedData (data : option string) (s : Provider) : Provider :=
  {| device := device s; connected := connected s; lastReceivedData := data |}.

(** The state the provider is created with. *)
Definition first_render : Provider :=
  {| device := None; connected := false; lastReceivedData := None |}.

(** The four handlers the provider registers. *)
Definition onConnected (arg : CallbackArg) (s : Provider) : Provider :=
  match arg with
  | ArgDevice dev => setConnected true (setDevice (Some dev) s)
  | _ => s
  end.

Definition onDisconnected (arg : CallbackArg) (s : Provider) : Provider :=
  setConnected false (setDevice None s).

Definition onError (arg : CallbackArg) (s : Provider) : Provider :=
  setConnected false s.

Definition onDataReceived (arg : CallbackArg) (s : Provider) : Provider :=
  match arg with
  | ArgData data => setLastReceivedData (Some data) s
  | _ => s
  end.

(** The object the effect passes to [setBluetoothCallbacks]. *)
Definition handlers : gmap string (JsSlot Provider) :=
  {[ "onConnected" := Fn onConnected;
     "onDisconnected" := Fn onDisconnected;
     "onError" := Fn onError;
     "onDataReceived" := Fn onDataReceived ]}.

Definition setState (f : Provider → Provider) : M Provider unit :=
  modify (λ w, set_host (f (host w)) w).

(** The effect that runs once, when the provider mounts: it registers the
    handlers, then takes over a connection that is already there. *)
Definition mount (w : World Provider) : World Provider :=
  let w := setBluetoothCallbacks handlers w in
  match getCurrentDevice w with
  | Some currentDevice =>
      if Bluetooth.connected currentDevice
      then set_host (setConnected true (setDevice (Some currentDevice) (host w))) w
      else w
  | None => w
  end.

(** [connect]; the value [connectToArduino] resolves to is an object, so
    the test [if (connectedDevice)] succeeds. *)
Definition connect (p : ConnectAnswers) : M Provider unit :=
  try_catch
    (connectedDevice ← connectToArduino p;
     setState (setDevice (Some connectedDevice));;
     setState (setConnected true))
    (λ error, throw error).

Definition disconnect (event_fires : bool) : M Provider unit :=
  try_catch
    (disconnectFromArduino event_fires;;
     setState (setDevice None);;
     setState (setConnected false))
    (λ error, throw error).

Definition reconnect (g : GattAnswers) : M Provider unit :=
  try_catch
    (reconnectedDevice ← reconnectToArduino g;
     setState (setDevice (Some reconnectedDevice));;
     setState (setConnected true))
    (λ error, throw error).

Definition sendData (data : JsString) (writeValue : Answer unit) : M Provider unit :=
  try_catch (sendToArduino data writeValue) (λ error, throw error).

(** The provider just after it mounted on a freshly loaded module. *)
Definition mounted (supported : bool) : World Provider :=
  mount (initial supported first_render).

(** What can happen while the provider is the only user of the module: a
    consumer calls one of its four operations, or the platform dispatches
    an event to a listener of the module. *)
Inductive Action : Type :=
| DoConnect (p : ConnectAnswers)
| DoReconnect (g : GattAnswers)
| DoDisconnect (event_fires : bool)
| DoSendData (data : JsString) (writeValue : Answer unit)
| LinkLost
| Notification (data : string).

Definition act (w : World Provider) (a : Action) : World Provider :=
  match a with
  | DoConnect p => snd (connect p w)
  | DoReconnect g => snd (reconnect g w)
  | DoDisconnect event_fires => snd (disconnect event_fires w)
  | DoSendData data writeValue => snd (sendData data writeValue w)
  | LinkLost => snd (Bluetooth.onDisconnected w)
  | Notification data => snd (handleCharacteristicValueChanged data w)
  end.

Definition session (actions : list Action) (w : World Provider) : World Provider :=
  foldl act w actions.

(** What the provider publishes agrees with the module: when it says
    connected, it has a record, the four handles are set and
    [gatt.connected] of the held device is on. *)
Definition published_connected_is_backed (w : World Provider) : Prop :=
  connected (host w) = true →
  is_Some (device (host w)) ∧
  is_Some (bluetoothServer w) ∧ is_Some (bluetoothService w) ∧
  is_Some (bluetoothCharacteristic w) ∧
  isConnected w = Some true.

(** Whether an action is a value notification of the characteristic. *)
Definition is_notification (a : Action) : bool :=
  match a with
  | Notification _ => true
  | _ => false
  end.

End BluetoothContext.

(** ** The provider and the screen on one module *)

Module App.
Import Platform Bluetooth.

(** Both components are mounted: the host state is the pair of theirs, and
    a handler of one component updates its own part. *)
Record Components : Type := {
  provider : BluetoothContext.Provider;
  screen : BluetoothScreen.Screen
}.

Definition of_provider (f : CallbackArg → BluetoothContext.Provider → BluetoothContext.Provider)
    (arg : CallbackArg) (c : Components) : Components :=
  {| provider := f arg (provider c); screen := screen c |}.

Definition of_screen (f : CallbackArg → BluetoothScreen.Screen → BluetoothScreen.Screen)
    (arg : CallbackArg) (c : Components) : Components :=
  {| provider := provider c; screen := f arg (screen c) |}.

(** The registration of the provider's effect. *)
Definition provider_registers : gmap string (JsSlot Components) :=
  {[ "onConnected" := Fn (of_provider BluetoothContext.onConnected);
     "onDisconnected" := Fn (of_provider BluetoothContext.onDisconnected);
     "onError" := Fn (of_provider BluetoothContext.onError);
     "onDataReceived" := Fn (of_provider BluetoothContext.onDataReceived) ]}.

(** The registration of the screen's effect. *)
Definition screen_registers : gmap string (JsSlot Components) :=
  {[ "onConnected" := Fn (of_screen BluetoothScreen.onConnected);
     "onDisconnected" := Fn (of_screen BluetoothScreen.onDisconnected);
     "onError" := Fn (of_screen BluetoothScreen.onError) ]}.

End App.

(** ** More sample values *)

Module MoreExamples.
Import Platform Bluetooth.

Definition nano : PlatformDevice :=
  {| dev_id := "nano-02"; dev_name := None; gatt_connected := false |}.

(** A second device is chosen, and its GATT connection is refused. *)
Definition nano_unreachable : ConnectAnswers :=
  {| requestDevice := Resolved nano;
     gatt := {| gatt_connect := Rejected "NetworkError" "Connection attempt failed.";
                getPrimaryService := Resolved Examples.service1;
                getCharacteristic := Resolved Examples.characteristic1;
                startNotifications := Resolved tt |} |}.

(** The module after a first, successful connection to [Examples.lumi]. *)
Definition connected_to_lumi : World (list string) :=
  snd (connectToArduino Examples.all_succeed Examples.loaded).

(** The screen and the provider, each after a successful connection made
    through it. *)
Definition provider_connected : World BluetoothContext.Provider :=
  snd (BluetoothContext.connect Examples.all_succeed (BluetoothContext.mounted true)).

(** The GATT connection to [Examples.lumi] is made, then the link drops
    while the service is looked up: the platform dispatches
    [gattserverdisconnected] and rejects the lookup. *)
Definition link_drops_answers : ConnectAnswers :=
  {| requestDevice := Resolved Examples.lumi;
     gatt := {| gatt_connect := Resolved Examples.server1;
                getPrimaryService :=
                  Rejected "NetworkError" "GATT Server is disconnected.";
                getCharacteristic := Resolved Examples.characteristic1;
                startNotifications := Resolved tt |} |}.

Definition link_drops : ConnectSuspensions (list string) :=
  {| during_requestDevice := λ w, w;
     during_gatt :=
       {| during_gatt_connect := λ w, w;
          during_getPrimaryService := λ w, snd (onDisconnected w);
          during_getCharacteristic := λ w, w;
          during_startNotifications := λ w, w |} |}.

(** A notification arrives while the characteristic is looked up. *)
Definition notified_meanwhile : ConnectSuspensions (list string) :=
  {| during_requestDevice := λ w, w;
     during_gatt :=
       {| during_gatt_connect := λ w, w;
          during_getPrimaryService := λ w, w;
          during_getCharacteristic := λ w, snd (handleCharacteristicValueChanged "48" w);
          during_startNotifications := λ w, w |} |}.

(** Both components created, on a freshly loaded module. *)
Definition both_created : World App.Components :=
  initial true {| App.provider := BluetoothContext.first_render;
                  App.screen := BluetoothScreen.first_render |}.

End MoreExamples.

(** * Properties *)

Import Platform Bluetooth.

(** Unfolds a run down to the state transformers it is made of. *)
Ltac expose :=
  unfold connectToArduino, reconnectToArduino, sendToArduino, disconnectFromArduino,
    onDisconnected, handleCharacteristicValueChanged, gatt_connect_held,
    gatt_disconnect_held, try_catch, mbind, M_bind, bind, gets, modify, await, deref,
    throw, mret, M_ret, ret, invoke, isBluetoothSupported, awaited in *;
  cbn in *.

Section Notify.
Context {Host : Type}.
Implicit Types (w : World Host) (key : string) (arg : CallbackArg).

(** A handler call leaves the module variables alone. *)
Lemma notify_bluetoothDevice key arg w :
  bluetoothDevice (notify key arg w) = bluetoothDevice w.
Proof. unfold notify. by destruct (callbacks w !! key) as [[|f]|]. Qed.

Lemma notify_bluetoothServer key arg w :
  bluetoothServer (notify key arg w) = bluetoothServer w.
Proof. unfold notify. by destruct (callbacks w !! key) as [[|f]|]. Qed.

Lemma notify_bluetoothService key arg w :
  bluetoothService (notify key arg w) = bluetoothService w.
Proof. unfold notify. by destruct (callbacks w !! key) as [[|f]|]. Qed.

Lemma notify_bluetoothCharacteristic key arg w :
  bluetoothCharacteristic (notify key arg w) = bluetoothCharacteristic w.
Proof. unfold notify. by destruct (callbacks w !! key) as [[|f]|]. Qed.

Lemma notify_callbacks key arg w : callbacks (notify key arg w) = callbacks w.
Proof. unfold notify. by destruct (callbacks w !! key) as [[|f]|]. Qed.

Lemma notify_navigator_bluetooth key arg w :
  navigator_bluetooth (notify key arg w) = navigator_bluetooth w.
Proof. unfold notify. by destruct (callbacks w !! key) as [[|f]|]. Qed.

(** With a handler under the key, the call is one event and one update of
    the host state. *)
Lemma notify_registered key arg w f :
  callbacks w !! key = Some (Fn f) →
  notify key arg w = emit (Invoked key arg) (set_host (f arg (host w)) w).
Proof. unfold notify. by intros ->. Qed.

(** Without one, nothing happens. *)
Lemma notify_unregistered key arg w :
  (∀ f, callbacks w !! key ≠ Some (Fn f)) → notify key arg w = w.
Proof.
  unfold notify. intros Hno.
  destruct (callbacks w !! key) as [[|f]|]; try done. by destruct (Hno f).
Qed.

(** Either way the log grows by at most the event of that call. *)
Lemma notify_log key arg w :
  log (notify key arg w) = log w ∨ log (notify key arg w) = log w ++ [Invoked key arg].
Proof. unfold notify. destruct (callbacks w !! key) as [[|f]|]; auto. Qed.

End Notify.

#[global] Arguments notify : simpl never.

(** Reads a module variable through the handler calls of a run. *)
Ltac through_notify :=
  rewrite ?notify_bluetoothDevice, ?notify_bluetoothServer, ?notify_bluetoothService,
    ?notify_bluetoothCharacteristic, ?notify_callbacks, ?notify_navigator_bluetooth.

Section Disconnecting.
Context {Host : Type}.
Implicit Types (w : World Host) (ops : list (Op Host)).

Lemma clear_handles_null w : handles_null (clear_handles w).
Proof. by repeat split. Qed.

(** Once every handle is [null], clearing changes nothing. *)
Lemma clear_handles_id w : handles_null w → clear_handles w = w.
Proof. destruct w. intros (? & ? & ? & ?). cbn in *. by subst. Qed.

(** [disconnectFromArduino] always returns, in a state without handles. *)
Lemma disconnectFromArduino_returns event_fires w :
  fst (disconnectFromArduino event_fires w) = Return tt ∧
  handles_null (snd (disconnectFromArduino event_fires w)).
Proof.
  expose. destruct (bluetoothDevice w) as [d|]; [|by repeat split].
  destruct (gatt_connected d); [|by repeat split].
  destruct event_fires; by repeat split.
Qed.

(** With every handle [null] it does not reach the platform and leaves the
    whole state as it is. *)
Lemma disconnectFromArduino_idle event_fires w :
  handles_null w → disconnectFromArduino event_fires w = (Return tt, w).
Proof.
  intros Hnull. pose proof Hnull as (Hd & _).
  expose. rewrite Hd. f_equal. by apply clear_handles_id.
Qed.

Lemma run_snoc ops o w : run (ops ++ [o]) w = step (run ops w) o.
Proof. unfold run. by rewrite foldl_app. Qed.

Lemma handles_null_getCurrentDevice w : handles_null w → getCurrentDevice w = None.
Proof. intros (Hd & _). unfold getCurrentDevice. by rewrite Hd. Qed.

End Disconnecting.

(** ** Disconnecting *)

(** C1. Whatever happened before, once [disconnect()] has run the four
    connection handles are [null] and [getCurrentDevice()] returns [null],
    whether or not the platform was asked to disconnect and whether or not
    its disconnection event fired; [disconnect()] itself always returns; and
    a further [disconnect()], like one on a freshly loaded module, returns
    without changing anything at all. *)
Theorem disconnect_clears_every_handle {Host} (ops : list (Op Host))
    (event_fires again : bool) (w : World Host) :
  let w' := run (ops ++ [Disconnect event_fires]) w in
  handles_null w' ∧
  getCurrentDevice w' = None ∧
  fst (disconnectFromArduino event_fires (run ops w)) = Return tt ∧
  disconnectFromArduino again w' = (Return tt, w') ∧
  (∀ supported (h : Host),
     disconnectFromArduino again (initial supported h) = (Return tt, initial supported h)).
Proof.
  intros w'. subst w'. rewrite run_snoc. cbn [step].
  destruct (disconnectFromArduino_returns event_fires (run ops w)) as [Hret Hnull].
  split; [done|]. split; [by apply handles_null_getCurrentDevice|].
  split; [done|]. split; [by apply disconnectFromArduino_idle|].
  intros supported h. by apply disconnectFromArduino_idle.
Qed.

(** A disconnection event, too, leaves no handle behind. *)
Lemma onDisconnected_returns {Host} (w : World Host) :
  onDisconnected w = (Return tt, clear_handles (notify "onDisconnected" ArgNone w)).
Proof. reflexivity. Qed.

(** C8. When the platform dispatches the disconnection event, the listener
    calls the registered [onDisconnected] handler (once, with no argument)
    and then sets the four handles to [null] together: the state it leaves
    has no handle set, the registry is untouched, the host state is the one
    the handler produced, and without a handler only the handles change. *)
Theorem onDisconnected_clears_handles_together {Host} (w : World Host) :
  let w' := snd (onDisconnected w) in
  fst (onDisconnected w) = Return tt ∧
  handles_null w' ∧
  callbacks w' = callbacks w ∧
  (∀ f, callbacks w !! "onDisconnected" = Some (Fn f) →
        host w' = f ArgNone (host w) ∧
        log w' = log w ++ [Invoked "onDisconnected" ArgNone]) ∧
  ((∀ f, callbacks w !! "onDisconnected" ≠ Some (Fn f)) →
        host w' = host w ∧ log w' = log w) ∧
  (∀ ops, handles_null (run (ops ++ [GattServerDisconnected]) w)).
Proof.
  intros w'. subst w'. rewrite onDisconnected_returns. cbn [fst snd].
  split; [done|]. split; [apply clear_handles_null|].
  split; [cbn; by through_notify|].
  split; [intros f Hf; by rewrite (notify_registered _ _ _ f Hf)|].
  split; [intros Hno; by rewrite (notify_unregistered _ _ _ Hno)|].
  intros ops. rewrite run_snoc. cbn [step]. rewrite onDisconnected_returns.
  apply clear_handles_null.
Qed.

Lemma onDisconnected_clears_handles_together_witness :
  host (snd (onDisconnected
               (setBluetoothCallbacks Examples.registers_onDisconnected
                  (snd (connectToArduino Examples.all_succeed Examples.loaded)))))
    = ["onDisconnected"] ∧
  log (snd (onDisconnected
              (setBluetoothCallbacks Examples.registers_onDisconnected Examples.loaded)))
    = [Invoked "onDisconnected" ArgNone].
Proof.
  split.
  - apply (proj1 (proj1 (proj2 (proj2 (proj2
      (onDisconnected_clears_handles_together
         (setBluetoothCallbacks Examples.registers_onDisconnected
            (snd (connectToArduino Examples.all_succeed Examples.loaded)))))))
      (Examples.journal "onDisconnected") eq_refl)).
  - apply (proj2 (proj1 (proj2 (proj2 (proj2
      (onDisconnected_clears_handles_together
         (setBluetoothCallbacks Examples.registers_onDisconnected Examples.loaded)))))
      (Examples.journal "onDisconnected") eq_refl)).
Defined.

(** ** The callback registry *)

(** C6. Registration merges. After two registrations with disjoint key sets,
    every entry of the first is still in the registry; in general a key the
    new object omits keeps what it had, a key it provides takes the new
    value, and nothing but the registry changes. *)
Theorem setBluetoothCallbacks_merges {Host}
    (first second : gmap string (JsSlot Host)) (key : string) (w : World Host) :
  (dom first ## dom second →
   ∀ v, first !! key = Some v →
        callbacks (setBluetoothCallbacks second (setBluetoothCallbacks first w)) !! key
          = Some v) ∧
  (second !! key = None →
   callbacks (setBluetoothCallbacks second w) !! key = callbacks w !! key) ∧
  (∀ v, second !! key = Some v →
        callbacks (setBluetoothCallbacks second w) !! key = Some v) ∧
  setBluetoothCallbacks second w = set_callbacks (callbacks (setBluetoothCallbacks second w)) w.
Proof.
  unfold setBluetoothCallbacks. cbn. repeat split.
  - intros Hdisjoint v Hfirst.
    assert (second !! key = None) as Hsecond.
    { apply not_elem_of_dom. intros Hin.
      apply (Hdisjoint key); [|done]. apply elem_of_dom. by exists v. }
    rewrite lookup_union_r by done. by apply lookup_union_Some_l.
  - intros Hsecond. by apply lookup_union_r.
  - intros v Hsecond. by apply lookup_union_Some_l.
Qed.

Lemma setBluetoothCallbacks_merges_witness :
  callbacks (setBluetoothCallbacks Examples.registers_onError
               (setBluetoothCallbacks Examples.registers_onConnected Examples.loaded))
    !! "onConnected" = Some (Fn (Examples.journal "onConnected")) ∧
  callbacks (setBluetoothCallbacks Examples.registers_onError Examples.loaded)
    !! "onConnected" = None ∧
  callbacks (setBluetoothCallbacks Examples.registers_onError Examples.loaded)
    !! "onError" = Some (Fn (Examples.journal "onError")).
Proof.
  pose proof (setBluetoothCallbacks_merges Examples.registers_onConnected
                Examples.registers_onError "onConnected" Examples.loaded)
    as (Hkept & Homitted & _).
  pose proof (setBluetoothCallbacks_merges Examples.registers_onConnected
                Examples.registers_onError "onError" Examples.loaded)
    as (_ & _ & Hprovided & _).
  split; [|split].
  - apply Hkept; [|reflexivity].
    refine (bool_decide_unpack _ _). vm_compute. exact I.
  - rewrite Homitted; reflexivity.
  - apply Hprovided. reflexivity.
Defined.

(** ** Reconnecting without a device *)

Lemma reconnect_without_device_none {Host} (g : GattAnswers) (w : World Host) :
  bluetoothDevice w = None → reconnectToArduino g w = (Throw NoPriorDevice, w).
Proof. intros Hd. expose. by rewrite Hd. Qed.

(** C7. With no device handle [reconnect()] throws the no-prior-device
    error, without reaching the platform, calling a handler or changing the
    state: so it does on a freshly loaded module, after any [disconnect()]
    and after any disconnection event. *)
Theorem reconnect_without_device_fails {Host} (g : GattAnswers) (w : World Host) :
  (bluetoothDevice w = None → reconnectToArduino g w = (Throw NoPriorDevice, w)) ∧
  (∀ supported (h : Host),
     reconnectToArduino g (initial supported h) = (Throw NoPriorDevice, initial supported h)) ∧
  (∀ ops event_fires,
     let w' := run (ops ++ [Disconnect event_fires]) w in
     reconnectToArduino g w' = (Throw NoPriorDevice, w')) ∧
  (∀ ops,
     let w' := run (ops ++ [GattServerDisconnected]) w in
     reconnectToArduino g w' = (Throw NoPriorDevice, w')).
Proof.
  pose proof (@reconnect_without_device_none Host g) as Hnone.
  split; [apply Hnone|]. split; [intros; by apply Hnone|]. split.
  - intros ops event_fires w'. apply Hnone. subst w'. rewrite run_snoc. cbn [step].
    apply disconnectFromArduino_returns.
  - intros ops w'. apply Hnone. subst w'. rewrite run_snoc. cbn [step].
    rewrite onDisconnected_returns. apply clear_handles_null.
Qed.

Lemma reconnect_without_device_fails_witness :
  reconnectToArduino Examples.gatt_succeeds Examples.listening
    = (Throw NoPriorDevice, Examples.listening).
Proof.
  apply (proj1 (reconnect_without_device_fails Examples.gatt_succeeds Examples.listening)).
  reflexivity.
Defined.

(** ** Connecting *)

(** C9. Without the platform API [connect()] throws the not-supported error
    at once: the handles and the registry are as before, the device chooser
    is not requested (the log grows by the handler call at most), and a
    registered [onError] handler has been called with that very error. *)
Theorem connect_unsupported_fails {Host} (p : ConnectAnswers) (w : World Host) :
  isBluetoothSupported w = false →
  let w' := snd (connectToArduino p w) in
  fst (connectToArduino p w) = Throw NotSupported ∧
  (bluetoothDevice w' = bluetoothDevice w ∧ bluetoothServer w' = bluetoothServer w ∧
   bluetoothService w' = bluetoothService w ∧
   bluetoothCharacteristic w' = bluetoothCharacteristic w) ∧
  callbacks w' = callbacks w ∧
  (log w' = log w ∨ log w' = log w ++ [Invoked "onError" (ArgError NotSupported)]) ∧
  (∀ f, callbacks w !! "onError" = Some (Fn f) →
        host w' = f (ArgError NotSupported) (host w) ∧
        log w' = log w ++ [Invoked "onError" (ArgError NotSupported)]) ∧
  ((∀ f, callbacks w !! "onError" ≠ Some (Fn f)) → w' = w).
Proof.
  intros Hunsupported w'.
  assert (connectToArduino p w = (Throw NotSupported, notify "onError" (ArgError NotSupported) w))
    as Hrun.
  { expose. by destruct (navigator_bluetooth w). }
  subst w'. rewrite Hrun. cbn [fst snd]. through_notify.
  split; [done|]. split; [done|]. split; [done|]. split; [apply notify_log|].
  split.
  - intros f Hf. by rewrite (notify_registered _ _ _ f Hf).
  - intros Hno. by apply notify_unregistered.
Qed.

Lemma connect_unsupported_fails_witness :
  fst (connectToArduino Examples.all_succeed
         (setBluetoothCallbacks Examples.registers_onError (initial false [])))
    = Throw NotSupported ∧
  log (snd (connectToArduino Examples.all_succeed
              (setBluetoothCallbacks Examples.registers_onError (initial false []))))
    = [Invoked "onError" (ArgError NotSupported)].
Proof.
  pose proof (connect_unsupported_fails Examples.all_succeed
                (setBluetoothCallbacks Examples.registers_onError (initial false []))
                eq_refl) as (Hthrown & _ & _ & _ & Hcalled & _).
  split; [exact Hthrown|].
  exact (proj2 (Hcalled (Examples.journal "onError") eq_refl)).
Defined.

(** ** How the three fallible operations fail *)

(** Closes a goal [platform_only w v] where [v] is [w] after some platform
    calls and assignments to the module variables. *)
Ltac platform_calls :=
  repeat split; cbn; rewrite <- ?app_assoc;
  eexists; (split; [reflexivity|]); repeat constructor.

Section Failing.
Context {Host : Type}.
Implicit Types (w v : World Host) (e : JsError).

Lemma platform_only_refl w : platform_only w w.
Proof. repeat split. exists []. by rewrite app_nil_r. Qed.

(** A failing [connectToArduino] ends with [callbacks.onError?.(e)], after
    platform calls only, and [e] is the not-supported error or the
    rejection of a call it awaited. *)
Lemma connectToArduino_failure p w e :
  fst (connectToArduino p w) = Throw e →
  (∃ v, snd (connectToArduino p w) = notify "onError" (ArgError e) v ∧ platform_only w v) ∧
  (e = NotSupported ∨ awaited (requestDevice p) = Throw e ∨
   awaited (gatt_connect (gatt p)) = Throw e ∨
   awaited (getPrimaryService (gatt p)) = Throw e ∨
   awaited (getCharacteristic (gatt p)) = Throw e ∨
   awaited (startNotifications (gatt p)) = Throw e).
Proof.
  destruct p as [rd [gc gps gch sn]]. expose.
  destruct (navigator_bluetooth w) eqn:Hnav; cbn.
  2:{ intros [= He]; subst e. split; [|by left].
      exists w. split; [done|apply platform_only_refl]. }
  rewrite Hnav. cbn.
  destruct rd as [chosen|]; cbn.
  2:{ intros [= He]; subst e. split; [|by right; left].
      eexists. split; [done|platform_calls]. }
  destruct gc as [server|]; cbn.
  2:{ intros [= He]; subst e. split; [|by do 2 right; left].
      eexists. split; [done|platform_calls]. }
  destruct gps as [service|]; cbn.
  2:{ intros [= He]; subst e. split; [|by do 3 right; left].
      eexists. split; [done|platform_calls]. }
  destruct gch as [characteristic|]; cbn.
  2:{ intros [= He]; subst e. split; [|by do 4 right; left].
      eexists. split; [done|platform_calls]. }
  destruct sn as [[]|]; cbn.
  2:{ intros [= He]; subst e. split; [|by do 5 right].
      eexists. split; [done|platform_calls]. }
  discriminate.
Qed.

(** It returns only if the API is there and every call it awaited
    resolved: no rejection is swallowed. *)
Lemma connectToArduino_return p w device :
  fst (connectToArduino p w) = Return device →
  isBluetoothSupported w = true ∧
  ∃ chosen server service characteristic,
    requestDevice p = Resolved chosen ∧ gatt_connect (gatt p) = Resolved server ∧
    getPrimaryService (gatt p) = Resolved service ∧
    getCharacteristic (gatt p) = Resolved characteristic ∧
    startNotifications (gatt p) = Resolved tt.
Proof.
  destruct p as [rd [gc gps gch sn]]. expose.
  destruct (navigator_bluetooth w) eqn:Hnav; cbn; [|discriminate].
  rewrite Hnav. cbn.
  destruct rd as [chosen|]; cbn; [|discriminate].
  destruct gc as [server|]; cbn; [|discriminate].
  destruct gps as [service|]; cbn; [|discriminate].
  destruct gch as [characteristic|]; cbn; [|discriminate].
  destruct sn as [[]|]; cbn; [|discriminate].
  intros _. split; [done|]. by exists chosen, server, service, characteristic.
Qed.

(** A failing [reconnectToArduino] either had no device, and then throws
    without a handler call, or ends like [connectToArduino]. *)
Lemma reconnectToArduino_failure g w e :
  fst (reconnectToArduino g w) = Throw e →
  (bluetoothDevice w = None ∧ e = NoPriorDevice ∧ snd (reconnectToArduino g w) = w) ∨
  (is_Some (bluetoothDevice w) ∧
   (∃ v, snd (reconnectToArduino g w) = notify "onError" (ArgError e) v ∧
         platform_only w v) ∧
   (awaited (gatt_connect g) = Throw e ∨ awaited (getPrimaryService g) = Throw e ∨
    awaited (getCharacteristic g) = Throw e ∨ awaited (startNotifications g) = Throw e)).
Proof.
  destruct g as [gc gps gch sn]. expose.
  destruct (bluetoothDevice w) as [d|] eqn:Hd; cbn.
  2:{ intros [= He]; subst e. by left. }
  rewrite Hd. cbn. intros Hthrown. right. split; [by exists d|]. revert Hthrown.
  destruct gc as [server|]; cbn.
  2:{ intros [= He]; subst e. split; [|by left].
      eexists. split; [done|platform_calls]. }
  destruct gps as [service|]; cbn.
  2:{ intros [= He]; subst e. split; [|by right; left].
      eexists. split; [done|platform_calls]. }
  destruct gch as [characteristic|]; cbn.
  2:{ intros [= He]; subst e. split; [|by do 2 right; left].
      eexists. split; [done|platform_calls]. }
  destruct sn as [[]|]; cbn.
  2:{ intros [= He]; subst e. split; [|by do 3 right].
      eexists. split; [done|platform_calls]. }
  discriminate.
Qed.

Lemma reconnectToArduino_return g w device :
  fst (reconnectToArduino g w) = Return device →
  ∃ server service characteristic,
    gatt_connect g = Resolved server ∧ getPrimaryService g = Resolved service ∧
    getCharacteristic g = Resolved characteristic ∧ startNotifications g = Resolved tt.
Proof.
  destruct g as [gc gps gch sn]. expose.
  destruct (bluetoothDevice w) as [d|] eqn:Hd; cbn; [|discriminate].
  rewrite Hd. cbn.
  destruct gc as [server|]; cbn; [|discriminate].
  destruct gps as [service|]; cbn; [|discriminate].
  destruct gch as [characteristic|]; cbn; [|discriminate].
  destruct sn as [[]|]; cbn; [|discriminate].
  intros _. by exists server, service, characteristic.
Qed.

(** [sendToArduino]: without a characteristic it throws and does nothing;
    with one it makes one write of the encoded text and completes as the
    write does. No handler is called either way. *)
Lemma sendToArduino_unconnected data writeValue w :
  bluetoothCharacteristic w = None →
  sendToArduino data writeValue w = (Throw NotConnected, w).
Proof. intros Hc. expose. by rewrite Hc. Qed.

Lemma sendToArduino_connected data writeValue w c :
  bluetoothCharacteristic w = Some c →
  sendToArduino data writeValue w
    = (awaited writeValue, emit (WriteValue c (TextEncoder_encode data)) w).
Proof. intros Hc. expose. rewrite Hc. cbn. rewrite Hc. by destruct writeValue. Qed.

End Failing.

(** ** The encoder yields UTF-8 *)

Section EncodingFacts.
Local Open Scope Z_scope.

Lemma lor_below_pow2 (a b n : Z) :
  0 ≤ a < 2 ^ n → 0 ≤ b < 2 ^ n → 0 ≤ Z.lor a b < 2 ^ n.
Proof.
  intros [Ha0 Ha] [Hb0 Hb].
  assert (0 ≤ Z.lor a b) as Hnonneg by (apply Z.lor_nonneg; lia).
  split; [done|].
  destruct (Z.eq_dec a 0) as [->|]; [by rewrite Z.lor_0_l|].
  destruct (Z.eq_dec b 0) as [->|]; [by rewrite Z.lor_0_r|].
  destruct (Z.eq_dec (Z.lor a b) 0) as [->|]; [lia|].
  apply Z.log2_lt_pow2; [lia|].
  rewrite Z.log2_lor by lia.
  apply Z.max_lub_lt; apply Z.log2_lt_pow2; lia.
Qed.

Lemma continuation_is_byte (c shift : Z) : 0 ≤ continuation c shift < 256.
Proof.
  unfold continuation.
  change 0x3F with (Z.ones 6). rewrite Z.land_ones by lia.
  pose proof (Z.mod_pos_bound (Z.shiftr c shift) (2 ^ 6) ltac:(lia)).
  apply (lor_below_pow2 _ _ 8); lia.
Qed.

Lemma lead_is_byte (tag c shift : Z) :
  0 ≤ tag < 256 → 0 ≤ shift → 0 ≤ c < 256 * 2 ^ shift →
  0 ≤ Z.lor tag (Z.shiftr c shift) < 256.
Proof.
  intros Htag Hshift Hc. apply (lor_below_pow2 _ _ 8); [lia|].
  rewrite Z.shiftr_div_pow2 by lia.
  assert (0 < 2 ^ shift) by (apply Z.pow_pos_nonneg; lia).
  split; [apply Z.div_pos; lia|].
  apply Z.div_lt_upper_bound; lia.
Qed.

(** Every element the encoder yields for a scalar value is a byte. *)
Lemma utf8_of_scalar_bytes (c : Z) :
  0 ≤ c < 0x110000 → Forall (λ b, 0 ≤ b < 256) (utf8_of_scalar c).
Proof.
  intros Hc. unfold utf8_of_scalar.
  destruct (Z.ltb_spec c 0x80); [repeat constructor; lia|].
  destruct (Z.ltb_spec c 0x800);
    [repeat constructor;
     try apply continuation_is_byte; apply lead_is_byte; cbn; lia|].
  destruct (Z.ltb_spec c 0x10000);
    repeat constructor;
    try apply continuation_is_byte; apply lead_is_byte; cbn; lia.
Qed.

(** Code units pair up to scalar values below U+110000. *)
Lemma scalar_values_range (s : JsString) :
  Forall (λ u, 0 ≤ u < 0x10000) s →
  Forall (λ c, 0 ≤ c < 0x110000) (scalar_values s).
Proof.
  remember (length s) as n eqn:Hn. revert s Hn.
  induction (lt_wf n) as [n _ IH]. intros [|u rest] Hn Hs; [constructor|].
  apply Forall_cons in Hs as [Hu Hrest]. cbn [scalar_values].
  destruct (is_high_surrogate u) eqn:Hhigh.
  - destruct rest as [|v rest']; [repeat constructor; lia|].
    pose proof Hrest as Hrest0.
    apply Forall_cons in Hrest as [Hv Hrest'].
    destruct (is_low_surrogate v) eqn:Hlow.
    + constructor.
      * unfold is_high_surrogate, is_low_surrogate in *.
        rewrite Z.shiftl_mul_pow2 by lia. lia.
      * apply (IH (length rest')); [cbn in Hn; lia|done|done].
    + constructor; [lia|]. apply (IH (length (v :: rest'))); [cbn in *; lia|done|done].
  - destruct (is_low_surrogate u); (constructor; [lia|]);
      apply (IH (length rest)); (cbn in Hn; lia) || done.
Qed.

(** [TextEncoder] turns UTF-16 code units into bytes. *)
Lemma TextEncoder_encode_bytes (data : JsString) :
  Forall (λ u, 0 ≤ u < 0x10000) data →
  Forall (λ b, 0 ≤ b < 256) (TextEncoder_encode data).
Proof.
  intros Hdata. unfold TextEncoder_encode.
  induction (scalar_values_range data Hdata) as [|c cs Hc _ IH]; [constructor|].
  cbn [flat_map]. apply Forall_app. split; [by apply utf8_of_scalar_bytes|done].
Qed.


End EncodingFacts.

(** ** Sending *)




(** ** Reconnecting after a disconnect *)

(** C3. The code falls short of it: [disconnectFromArduino] sets the device
    handle to [null], the only handle [reconnectToArduino] reads, so after a
    successful [connect()] and a [disconnect()], with or without the
    disconnection event, [reconnect()] throws the no-prior-device error
    instead of reconnecting to the device that was connected. *)
Lemma reconnect_after_disconnect_has_no_device :
  fst (connectToArduino Examples.all_succeed Examples.loaded)
    = Return {| id := "lumi-01"; name := "Lumi"; connected := true |} ∧
  fst (reconnectToArduino Examples.gatt_succeeds
         (run [Connect Examples.all_succeed; Disconnect false] Examples.loaded))
    = Throw NoPriorDevice ∧
  fst (reconnectToArduino Examples.gatt_succeeds
         (run [Connect Examples.all_succeed; Disconnect true] Examples.loaded))
    = Throw NoPriorDevice.
Proof. repeat split. Qed.

(** ** Error propagation *)





(** ** The onboarding screen on a successful connection *)

(** C5, what the code does. On a mounted screen, when the chooser and every
    GATT step succeed, [onConnected] is called exactly once, with a record
    whose [connected] is [true]; but [handleConnect] sets the state to
    [connecting] after [connectToArduino] has returned, that is after the
    handler has set it to [connected]: the states set are searching,
    connected, connecting, the screen ends in [connecting], and no
    auto-advance timer is pending. *)
Theorem handleConnect_success_ends_connecting (chosen : PlatformDevice)
    (server : GattServer) (service : GattService) (characteristic : GattCharacteristic) :
  let p := {| requestDevice := Resolved chosen;
              gatt := {| gatt_connect := Resolved server;
                         getPrimaryService := Resolved service;
                         getCharacteristic := Resolved characteristic;
                         startNotifications := Resolved tt |} |} in
  let device :=
    {| id := dev_id chosen; name := name_or_Arduino (dev_name chosen); connected := true |} in
  let w' := snd (BluetoothScreen.handleConnect p (BluetoothScreen.mounted true)) in
  fst (BluetoothScreen.handleConnect p (BluetoothScreen.mounted true)) = Return tt ∧
  log w' = [RequestDevice; ListenDisconnected (dev_id chosen); GattConnect (dev_id chosen);
            GetPrimaryService server ARDUINO_SERVICE_UUID;
            GetCharacteristic service ARDUINO_CHARACTERISTIC_UUID;
            StartNotifications characteristic; ListenValueChanged characteristic;
            Invoked "onConnected" (ArgDevice device)] ∧
  BluetoothScreen.connectedDevice (host w') = Some device ∧
  BluetoothScreen.history (host w')
    = [BluetoothScreen.Idle; BluetoothScreen.Searching;
       BluetoothScreen.Connected; BluetoothScreen.Connecting] ∧
  BluetoothScreen.connectionState (host w') = BluetoothScreen.Connecting ∧
  BluetoothScreen.auto_advance_pending (host w') = false.
Proof. repeat split. Qed.

(** * Further properties of the adapter module *)

Section Succeeding.
Context {Host : Type}.
Implicit Types (w v : World Host).

(** A run of [connectToArduino] in which every step succeeds: seven
    platform calls, the four handles set, then [callbacks.onConnected?.()]. *)
Lemma connectToArduino_success p w chosen server service characteristic :
  isBluetoothSupported w = true →
  requestDevice p = Resolved chosen → gatt_connect (gatt p) = Resolved server →
  getPrimaryService (gatt p) = Resolved service →
  getCharacteristic (gatt p) = Resolved characteristic →
  startNotifications (gatt p) = Resolved tt →
  let device :=
    {| id := dev_id chosen; name := name_or_Arduino (dev_name chosen); connected := true |} in
  ∃ v,
    connectToArduino p w = (Return device, notify "onConnected" (ArgDevice device) v) ∧
    platform_only w v ∧
    log v = log w ++ [RequestDevice; ListenDisconnected (dev_id chosen);
                      GattConnect (dev_id chosen);
                      GetPrimaryService server ARDUINO_SERVICE_UUID;
                      GetCharacteristic service ARDUINO_CHARACTERISTIC_UUID;
                      StartNotifications characteristic;
                      ListenValueChanged characteristic] ∧
    bluetoothDevice v = Some (with_gatt_connected true chosen) ∧
    bluetoothServer v = Some server ∧ bluetoothService v = Some service ∧
    bluetoothCharacteristic v = Some characteristic.
Proof.
  intros Hsupported Hrd Hgc Hgps Hgch Hsn device.
  destruct p as [rd [gc gps gch sn]]. cbn in Hrd, Hgc, Hgps, Hgch, Hsn.
  subst rd gc gps gch sn. expose.
  destruct (navigator_bluetooth w) eqn:Hnav; [|discriminate]. cbn. rewrite Hnav. cbn.
  eexists. split; [reflexivity|]. split; [platform_calls|].
  cbn. rewrite <- !app_assoc. by repeat split.
Qed.

(** The same for [reconnectToArduino], on the device it holds. *)
Lemma reconnectToArduino_success g w d server service characteristic :
  bluetoothDevice w = Some d →
  gatt_connect g = Resolved server → getPrimaryService g = Resolved service →
  getCharacteristic g = Resolved characteristic → startNotifications g = Resolved tt →
  let device :=
    {| id := dev_id d; name := name_or_Arduino (dev_name d); connected := true |} in
  ∃ v,
    reconnectToArduino g w = (Return device, notify "onConnected" (ArgDevice device) v) ∧
    platform_only w v ∧
    bluetoothDevice v = Some (with_gatt_connected true d) ∧
    bluetoothServer v = Some server ∧ bluetoothService v = Some service ∧
    bluetoothCharacteristic v = Some characteristic.
Proof.
  intros Hd Hgc Hgps Hgch Hsn device.
  destruct g as [gc gps gch sn]. cbn in Hgc, Hgps, Hgch, Hsn. subst gc gps gch sn.
  expose. rewrite Hd. cbn. rewrite Hd. cbn.
  eexists. split; [reflexivity|]. split; [platform_calls|]. by repeat split.
Qed.

(** Whether [connectToArduino] returns or throws, and what, is decided by
    the presence of the API and the answers of the platform alone. *)
Lemma connectToArduino_completion p w v :
  navigator_bluetooth w = navigator_bluetooth v →
  fst (connectToArduino p w) = fst (connectToArduino p v).
Proof.
  intros Hnav. destruct p as [rd [gc gps gch sn]].
  destruct (navigator_bluetooth w) eqn:Hw, (navigator_bluetooth v) eqn:Hv;
    try discriminate; expose; rewrite Hw, Hv; cbn; [|done].
  rewrite Hw, Hv. cbn.
  destruct rd as [chosen|]; cbn; [|done].
  destruct gc as [server|]; cbn; [|done].
  destruct gps as [service|]; cbn; [|done].
  destruct gch as [characteristic|]; cbn; [|done].
  by destruct sn as [[]|].
Qed.

End Succeeding.

(** Splits a run of [connectToArduino] or [reconnectToArduino] on the
    answers of the platform. *)
Ltac by_answers rd gc gps gch sn :=
  destruct rd as [?chosen|], gc as [?server|], gps as [?service|],
    gch as [?characteristic|], sn as [[]|]; cbn.

(** Reads a field of the state a run ends in. *)
Ltac settle := cbn; repeat (progress (through_notify; cbn)); done.

Section Stepping.
Context {Host : Type}.
Implicit Types (w : World Host) (o : Op Host) (ops : list (Op Host)).

(** Only [setBluetoothCallbacks] writes the registry. *)
Lemma step_callbacks w o :
  callbacks (step w o) =
    match o with
    | SetCallbacks newCallbacks => newCallbacks ∪ callbacks w
    | _ => callbacks w
    end.
Proof.
  destruct o as [[rd [gc gps gch sn]]|[gc gps gch sn]|event_fires|data writeValue| | |];
    cbn [step]; try done.
  - expose. destruct (navigator_bluetooth w) eqn:Hnav; cbn; rewrite ?Hnav; cbn;
      [|settle].
    by_answers rd gc gps gch sn; settle.
  - expose. destruct (bluetoothDevice w) as [d|] eqn:Hd; cbn; rewrite ?Hd; cbn; [|done].
    destruct gc as [server|], gps as [service|], gch as [characteristic|], sn as [[]|];
      cbn; settle.
  - expose. expose. destruct (bluetoothDevice w) as [d|]; cbn; [|done].
    destruct (gatt_connected d), event_fires; cbn; settle.
  - expose. destruct (bluetoothCharacteristic w) as [c|] eqn:Hc; cbn; rewrite ?Hc; [|done].
    by destruct writeValue.
  - rewrite onDisconnected_returns. settle.
  - expose. settle.
Qed.

End Stepping.

(** ** The registry over time *)

(** X2. No operation removes a key from the registry, and the operations
    other than [setBluetoothCallbacks] (connecting, reconnecting,
    disconnecting, sending, the two listeners) leave the registry exactly
    as it is. *)
Theorem registry_changes_only_by_registration {Host} (ops : list (Op Host))
    (key : string) (w : World Host) :
  (is_Some (callbacks w !! key) → is_Some (callbacks (run ops w) !! key)) ∧
  (forallb (λ o, negb (registers o)) ops = true → callbacks (run ops w) = callbacks w).
Proof.
  revert w. induction ops as [|o ops IH]; intros w; [done|].
  cbn [run foldl forallb]. destruct (IH (step w o)) as [IHkey IHsame]. split.
  - intros Hkey. apply IHkey. rewrite step_callbacks.
    destruct o; try done. apply lookup_union_is_Some. by right.
  - intros Hnone. apply andb_prop in Hnone as [Ho Hops].
    unfold run in IHsame. rewrite (IHsame Hops), step_callbacks. by destruct o.
Qed.

Lemma registry_changes_only_by_registration_witness :
  is_Some (callbacks (run [SetCallbacks Examples.registers_onConnected;
                           Connect Examples.all_succeed; Disconnect true]
                        Examples.listening) !! "onError") ∧
  callbacks (run [Connect Examples.all_succeed; Send Examples.text_48 (Resolved tt);
                  GattServerDisconnected] Examples.listening)
    = callbacks Examples.listening.
Proof.
  split.
  - apply (proj1 (registry_changes_only_by_registration
                    [SetCallbacks Examples.registers_onConnected;
                     Connect Examples.all_succeed; Disconnect true]
                    "onError" Examples.listening)).
    by eexists.
  - apply (proj2 (registry_changes_only_by_registration
                    [Connect Examples.all_succeed; Send Examples.text_48 (Resolved tt);
                     GattServerDisconnected]
                    "onError" Examples.listening)).
    reflexivity.
Defined.

Lemma name_or_Arduino_nonempty n : name_or_Arduino n ≠ "".
Proof. by destruct n as [[|a s]|]. Qed.

(** ** Asking for the connection state *)

(** X6. [isConnected()] and [getCurrentDevice()] agree: the first is [null]
    exactly when the second is, and otherwise it is the [connected] field of
    the record; that record carries the id of the held device and a name
    that is never empty ("Arduino" when the device has none). After any
    [disconnect()] and after any disconnection event [isConnected()] is
    [null], not [false]. *)
Theorem isConnected_agrees_with_getCurrentDevice {Host} (w : World Host) :
  (isConnected w = None ↔ getCurrentDevice w = None) ∧
  (∀ b, isConnected w = Some b ↔ ∃ r, getCurrentDevice w = Some r ∧ connected r = b) ∧
  (∀ r, getCurrentDevice w = Some r →
        name r ≠ "" ∧
        ∃ d, bluetoothDevice w = Some d ∧ id r = dev_id d ∧
             (dev_name d = None ∨ dev_name d = Some "" → name r = "Arduino")) ∧
  (∀ ops event_fires, isConnected (run (ops ++ [Disconnect event_fires]) w) = None) ∧
  (∀ ops, isConnected (run (ops ++ [GattServerDisconnected]) w) = None).
Proof.
  unfold isConnected, getCurrentDevice.
  split; [by destruct (bluetoothDevice w)|]. split; [|split; [|split]].
  - intros b. destruct (bluetoothDevice w) as [d|]; split.
    + intros [= <-]. eexists. split; [done|]. cbn. apply orb_false_r.
    + intros (r & [= <-] & <-). cbn. by rewrite orb_false_r.
    + done.
    + by intros (r & [=] & _).
  - intros r. destruct (bluetoothDevice w) as [d|]; [|done]. intros [= <-]. cbn.
    split; [apply name_or_Arduino_nonempty|]. exists d. split; [done|]. split; [done|].
    by intros [-> | ->].
  - intros ops event_fires. rewrite run_snoc. cbn [step].
    by destruct (disconnectFromArduino_returns event_fires (run ops w)) as (_ & -> & _).
  - intros ops. rewrite run_snoc. cbn [step]. by rewrite onDisconnected_returns.
Qed.

Lemma isConnected_agrees_with_getCurrentDevice_witness :
  isConnected Examples.loaded = None ∧
  ∃ r, getCurrentDevice MoreExamples.connected_to_lumi = Some r ∧ connected r = true.
Proof.
  pose proof (isConnected_agrees_with_getCurrentDevice Examples.loaded) as (Hnull & _).
  pose proof (isConnected_agrees_with_getCurrentDevice MoreExamples.connected_to_lumi)
    as (_ & Hrecord & _).
  split.
  - apply Hnull. reflexivity.
  - apply Hrecord. reflexivity.
Defined.

(** ** The size of a write *)

Section EncodedLength.
Local Open Scope Z_scope.

Lemma utf8_of_scalar_length (c : Z) :
  (1 ≤ length (utf8_of_scalar c) ≤ 4)%nat ∧
  (c < 0x10000 → (length (utf8_of_scalar c) ≤ 3)%nat) ∧
  (0x10000 ≤ c → length (utf8_of_scalar c) = 4%nat).
Proof.
  unfold utf8_of_scalar.
  destruct (Z.ltb_spec c 0x80); [cbn; lia|].
  destruct (Z.ltb_spec c 0x800); [cbn; lia|].
  destruct (Z.ltb_spec c 0x10000); cbn; lia.
Qed.

(** A code unit becomes one to three bytes (a surrogate pair, two units,
    becomes four). *)
Lemma TextEncoder_encode_length (data : JsString) :
  Forall (λ u, 0 ≤ u < 0x10000) data →
  (length data ≤ length (TextEncoder_encode data) ≤ 3 * length data)%nat.
Proof.
  unfold TextEncoder_encode.
  remember (length data) as n eqn:Hn. revert data Hn.
  induction (lt_wf n) as [n _ IH]. intros [|u rest] Hn Hdata; [cbn in *; lia|].
  apply Forall_cons in Hdata as [Hu Hrest]. cbn [scalar_values]. cbn [length] in Hn.
  destruct (is_high_surrogate u) eqn:Hhigh.
  - destruct rest as [|v rest'];
      [change (flat_map utf8_of_scalar [0xFFFD]) with [239; 191; 189]; cbn in *; lia|].
    pose proof Hrest as Hrest0. apply Forall_cons in Hrest as [Hv Hrest'].
    destruct (is_low_surrogate v) eqn:Hlow; cbn [flat_map]; rewrite length_app.
    + pose proof (IH (length rest') ltac:(cbn in Hn; lia) rest' eq_refl Hrest') as Hrec.
      destruct (utf8_of_scalar_length
                  (0x10000 + Z.shiftl (u - 0xD800) 10 + (v - 0xDC00))) as (_ & _ & Hfour).
      rewrite Hfour; [cbn in *; lia|].
      unfold is_high_surrogate, is_low_surrogate in *. rewrite Z.shiftl_mul_pow2 by lia. lia.
    + pose proof (IH (length (v :: rest')) ltac:(cbn in *; lia) (v :: rest') eq_refl Hrest0)
        as Hrec.
      change (length (utf8_of_scalar 0xFFFD)) with 3%nat. cbn in *. lia.
  - destruct (is_low_surrogate u); cbn [flat_map]; rewrite length_app;
      pose proof (IH (length rest) ltac:(lia) rest eq_refl Hrest) as Hrec.
    + change (length (utf8_of_scalar 0xFFFD)) with 3%nat. lia.
    + destruct (utf8_of_scalar_length u) as (Hone & Hthree & _). lia.
Qed.

End EncodedLength.

(** X7. With a characteristic held and a payload of [n] UTF-16 code units,
    [sendToArduino] hands the platform, in its one write, between [n] and
    [3 n] bytes, whatever [n] is: the payload is not split, and the empty
    string is written too, as an empty array. *)
Theorem send_writes_whole_payload {Host} (data : JsString) (writeValue : Answer unit)
    (c : GattCharacteristic) (w : World Host) :
  bluetoothCharacteristic w = Some c →
  Forall (λ u, 0 ≤ u < 0x10000)%Z data →
  ∃ dataArray,
    log (snd (sendToArduino data writeValue w)) = log w ++ [WriteValue c dataArray] ∧
    length data ≤ length dataArray ≤ 3 * length data ∧
    Forall (λ b, 0 ≤ b < 256)%Z dataArray ∧
    (data = [] → dataArray = []).
Proof.
  intros Hc Hdata. exists (TextEncoder_encode data).
  rewrite (sendToArduino_connected _ _ _ c Hc). cbn [snd].
  split; [done|]. split; [by apply TextEncoder_encode_length|].
  split; [by apply TextEncoder_encode_bytes|]. by intros ->.
Qed.

Lemma send_writes_whole_payload_witness :
  ∃ dataArray,
    log (snd (sendToArduino [] (Resolved tt) MoreExamples.connected_to_lumi))
      = log MoreExamples.connected_to_lumi ++ [WriteValue Examples.characteristic1 dataArray] ∧
    length (@nil Z) ≤ length dataArray ≤ 3 * length (@nil Z).
Proof.
  destruct (send_writes_whole_payload [] (Resolved tt) Examples.characteristic1
              MoreExamples.connected_to_lumi eq_refl (List.Forall_nil _))
    as (dataArray & Hlog & Hlength & _).
  by exists dataArray.
Defined.

(** * Further properties of the onboarding screen *)

(** Unfolds an asynchronous function of a component down to the call of the
    adapter it awaits. *)
Ltac into_component :=
  unfold BluetoothScreen.handleConnect, BluetoothScreen.handleDisconnect,
    BluetoothScreen.setState, BluetoothContext.connect, BluetoothContext.reconnect,
    BluetoothContext.disconnect, BluetoothContext.sendData, BluetoothContext.setState,
    try_catch, mbind, M_bind, bind, modify, throw;
  cbv beta iota.

(** X8. [handleConnect] ends the propagation of errors. Whenever
    [connectToArduino] fails, for lack of the API or because the platform
    rejects a step, [handleConnect] still returns, the screen is in the
    [error] state, its [error] cell holds the message of the error thrown,
    word for word, and no auto-advance is pending: this whatever handlers
    are registered. *)
Theorem handleConnect_failure_shows_message (p : ConnectAnswers) (e : JsError)
    (w : World BluetoothScreen.Screen) :
  fst (connectToArduino p w) = Throw e →
  let w' := snd (BluetoothScreen.handleConnect p w) in
  fst (BluetoothScreen.handleConnect p w) = Return tt ∧
  BluetoothScreen.connectionState (host w') = BluetoothScreen.Error ∧
  BluetoothScreen.error (host w') = Some (message e) ∧
  last (BluetoothScreen.history (host w')) = Some BluetoothScreen.Error ∧
  BluetoothScreen.auto_advance_pending (host w') = false.
Proof.
  intros Hthrown w'. subst w'. into_component.
  match goal with |- context [connectToArduino p ?x] => set (w1 := x) end.
  assert (fst (connectToArduino p w1) = Throw e) as Hsame.
  { rewrite <- Hthrown. by apply connectToArduino_completion. }
  destruct (connectToArduino p w1) as [[r|e'] w2]; cbn in Hsame; simplify_eq.
  cbn. repeat split. apply last_snoc.
Qed.

Lemma handleConnect_failure_shows_message_witness :
  BluetoothScreen.error
    (host (snd (BluetoothScreen.handleConnect Examples.all_succeed
                  (BluetoothScreen.mounted false))))
    = Some "Bluetooth no está soportado en este navegador" ∧
  BluetoothScreen.connectionState
    (host (snd (BluetoothScreen.handleConnect Examples.chooser_dismissed
                  (BluetoothScreen.mounted true))))
    = BluetoothScreen.Error.
Proof.
  split.
  - exact (proj1 (proj2 (proj2 (handleConnect_failure_shows_message Examples.all_succeed
                                  NotSupported (BluetoothScreen.mounted false) eq_refl)))).
  - exact (proj1 (proj2 (handleConnect_failure_shows_message Examples.chooser_dismissed
                           (Rejection "NotFoundError"
                              "User cancelled the requestDevice() chooser.")
                           (BluetoothScreen.mounted true) eq_refl))).
Defined.

(** X9. The two asynchronous handlers of the screen never throw. After
    [handleDisconnect] the screen is [idle] with no connected device, the
    module holds no handle and [getCurrentDevice()] is [null], whether or
    not a device was connected and whatever handlers are registered. *)
Theorem screen_handlers_return (p : ConnectAnswers) (event_fires : bool)
    (w : World BluetoothScreen.Screen) :
  fst (BluetoothScreen.handleConnect p w) = Return tt ∧
  let w' := snd (BluetoothScreen.handleDisconnect event_fires w) in
  fst (BluetoothScreen.handleDisconnect event_fires w) = Return tt ∧
  BluetoothScreen.connectionState (host w') = BluetoothScreen.Idle ∧
  BluetoothScreen.connectedDevice (host w') = None ∧
  handles_null w' ∧ getCurrentDevice w' = None ∧
  callbacks w' = callbacks w.
Proof.
  split.
  - into_component. by destruct (connectToArduino p _) as [[r|e] w2].
  - intros w'. subst w'.
    pose proof (step_callbacks w (Disconnect event_fires)) as Hcallbacks. cbn [step] in Hcallbacks.
    destruct (disconnectFromArduino_returns event_fires w) as [Hreturn Hnull].
    into_component.
    destruct (disconnectFromArduino event_fires w) as [[[]|e] w2]; [|done].
    cbn in *. split; [done|]. split; [done|]. split; [done|]. split; [done|].
    split; [|done]. unfold getCurrentDevice. cbn. by destruct Hnull as [-> _].
Qed.

(** * Properties of the context provider *)

Section ProviderSteps.
Import BluetoothContext.
Implicit Types (w : World Provider) (a : Action).

Lemma mounted_callbacks supported : callbacks (mounted supported) = handlers.
Proof. unfold mounted, mount. cbn. apply (right_id_L ∅ (∪)). Qed.

(** A [try] whose [catch] only rethrows is its body. *)
Lemma rethrow_only {A} (body : M Provider A) w :
  try_catch body (λ error, throw error) w = body w.
Proof. unfold try_catch, throw. by destruct (body w) as [[r|e] w2]. Qed.

(** One action on a module whose registry is the provider's: the registry
    stays, what is published as connected stays backed by the module, and
    only a notification changes the last data received. *)
Lemma act_keeps_provider_in_step w a :
  callbacks w = handlers → published_connected_is_backed w →
  callbacks (act w a) = handlers ∧
  published_connected_is_backed (act w a) ∧
  lastReceivedData (host (act w a))
    = match a with
      | Notification data => Some data
      | _ => lastReceivedData (host w)
      end.
Proof.
  intros Hcallbacks Hbacked. unfold published_connected_is_backed in *.
  destruct a as [p|g|event_fires|data writeValue| |data]; cbn [act].
  - into_component. destruct (connectToArduino p w) as [[r|e] w2] eqn:Hrun.
    + pose proof (f_equal fst Hrun) as Hreturn. cbn [fst] in Hreturn.
      destruct (connectToArduino_return p w r Hreturn)
        as (Hsupported & chosen & server & service & characteristic
            & Hrd & Hgc & Hgps & Hgch & Hsn).
      destruct (connectToArduino_success p w chosen server service characteristic
                  Hsupported Hrd Hgc Hgps Hgch Hsn)
        as (v & Hsuccess & (Hhost & Hsame & _) & _ & Hd & Hs & Hv & Hc).
      rewrite Hrun in Hsuccess. injection Hsuccess as Hr Hw2. subst w2.
      rewrite (notify_registered _ _ v onConnected)
        by (by rewrite Hsame, Hcallbacks).
      cbn. rewrite Hsame, Hhost. split; [done|]. split; [|done].
      intros _. unfold isConnected. cbn. rewrite Hd, Hs, Hv, Hc. by repeat split.
    + pose proof (f_equal fst Hrun) as Hthrown. cbn [fst] in Hthrown.
      destruct (connectToArduino_failure p w e Hthrown) as [(v & Hv & Hhost & Hsame & _) _].
      rewrite Hrun in Hv. cbn [snd] in Hv. subst w2. cbn [snd].
      rewrite (notify_registered _ _ v onError) by (by rewrite Hsame, Hcallbacks).
      cbn. rewrite Hsame, Hhost. by repeat split.
  - into_component. destruct (reconnectToArduino g w) as [[r|e] w2] eqn:Hrun.
    + pose proof (f_equal fst Hrun) as Hreturn. cbn [fst] in Hreturn.
      destruct (reconnectToArduino_return g w r Hreturn)
        as (server & service & characteristic & Hgc & Hgps & Hgch & Hsn).
      destruct (bluetoothDevice w) as [d|] eqn:Hheld.
      2:{ by rewrite (reconnect_without_device_none g w Hheld) in Hreturn. }
      destruct (reconnectToArduino_success g w d server service characteristic
                  Hheld Hgc Hgps Hgch Hsn)
        as (v & Hsuccess & (Hhost & Hsame & _) & Hd & Hs & Hv & Hc).
      rewrite Hrun in Hsuccess. injection Hsuccess as Hr Hw2. subst w2.
      rewrite (notify_registered _ _ v onConnected)
        by (by rewrite Hsame, Hcallbacks).
      cbn. rewrite Hsame, Hhost. split; [done|]. split; [|done].
      intros _. unfold isConnected. cbn. rewrite Hd, Hs, Hv, Hc. by repeat split.
    + pose proof (f_equal fst Hrun) as Hthrown. cbn [fst] in Hthrown.
      destruct (reconnectToArduino_failure g w e Hthrown)
        as [(_ & _ & Hw2)|(_ & (v & Hv & Hhost & Hsame & _) & _)];
        rewrite Hrun in *; cbn [snd] in *; subst w2; cbn [snd].
      * done.
      * rewrite (notify_registered _ _ v onError) by (by rewrite Hsame, Hcallbacks).
        cbn. rewrite Hsame, Hhost. by repeat split.
  - pose proof (step_callbacks w (Disconnect event_fires)) as Hsame. cbn [step] in Hsame.
    destruct (disconnectFromArduino_returns event_fires w) as [Hreturn _].
    assert (lastReceivedData (host (snd (disconnectFromArduino event_fires w)))
            = lastReceivedData (host w)) as Hdata.
    { expose. expose. destruct (bluetoothDevice w) as [d|]; cbn; [|done].
      destruct (gatt_connected d), event_fires; cbn; try done.
      by rewrite (notify_registered _ _ _ onDisconnected) by (cbn; by rewrite Hcallbacks). }
    into_component.
    destruct (disconnectFromArduino event_fires w) as [[[]|e] w2]; [|done].
    cbn in *. by rewrite Hsame.
  - unfold sendData. rewrite rethrow_only.
    destruct (bluetoothCharacteristic w) as [c|] eqn:Hc.
    + rewrite (sendToArduino_connected _ _ _ c Hc). cbn. split; [done|]. split; [|done].
      intros Hconnected. unfold isConnected in *. cbn. rewrite Hc.
      destruct (Hbacked Hconnected) as (? & ? & ? & ? & ?). by repeat split.
    + rewrite (sendToArduino_unconnected _ _ _ Hc). cbn [snd]. by rewrite Hc.
  - rewrite onDisconnected_returns. cbn [snd].
    rewrite (notify_registered _ _ w onDisconnected) by (by rewrite Hcallbacks).
    cbn. by repeat split.
  - expose. rewrite (notify_registered _ _ w onDataReceived) by (by rewrite Hcallbacks).
    cbn. split; [done|]. split; [|done]. unfold isConnected. cbn. apply Hbacked.
Qed.

Lemma session_snoc actions a w : session (actions ++ [a]) w = act (session actions w) a.
Proof. unfold session. by rewrite foldl_app. Qed.

(** Both invariants hold all along a session of a mounted provider. *)
Lemma session_keeps_provider_in_step actions supported :
  callbacks (session actions (mounted supported)) = handlers ∧
  published_connected_is_backed (session actions (mounted supported)).
Proof.
  induction actions as [|a actions IH] using rev_ind.
  - split; [apply mounted_callbacks|]. by intros [=].
  - rewrite session_snoc. destruct IH as [Hcallbacks Hbacked].
    by destruct (act_keeps_provider_in_step _ a Hcallbacks Hbacked) as (? & ? & _).
Qed.

End ProviderSteps.

(** X10. The operations of the provider complete as those of the adapter
    do. A failing [connect] or [reconnect] throws the adapter's error and
    adds nothing to what the adapter did; a successful one publishes the
    record returned and [isConnected = true]; [sendData] is
    [sendToArduino]; [disconnect] always returns and publishes no device
    and [isConnected = false]. *)
Theorem provider_operations_pass_through (p : ConnectAnswers) (g : GattAnswers)
    (event_fires : bool) (data : JsString) (writeValue : Answer unit)
    (w : World BluetoothContext.Provider) :
  (∀ e, fst (connectToArduino p w) = Throw e →
        BluetoothContext.connect p w = (Throw e, snd (connectToArduino p w))) ∧
  (∀ r, fst (connectToArduino p w) = Return r →
        BluetoothContext.connect p w
          = (Return tt,
             set_host (BluetoothContext.setConnected true
                         (BluetoothContext.setDevice (Some r)
                            (host (snd (connectToArduino p w)))))
               (snd (connectToArduino p w)))) ∧
  (∀ e, fst (reconnectToArduino g w) = Throw e →
        BluetoothContext.reconnect g w = (Throw e, snd (reconnectToArduino g w))) ∧
  (∀ r, fst (reconnectToArduino g w) = Return r →
        BluetoothContext.reconnect g w
          = (Return tt,
             set_host (BluetoothContext.setConnected true
                         (BluetoothContext.setDevice (Some r)
                            (host (snd (reconnectToArduino g w)))))
               (snd (reconnectToArduino g w)))) ∧
  BluetoothContext.sendData data writeValue w = sendToArduino data writeValue w ∧
  BluetoothContext.disconnect event_fires w
    = (Return tt,
       set_host (BluetoothContext.setConnected false
                   (BluetoothContext.setDevice None
                      (host (snd (disconnectFromArduino event_fires w)))))
         (snd (disconnectFromArduino event_fires w))).
Proof.
  split; [|split; [|split; [|split; [|split]]]].
  - intros e. into_component. destruct (connectToArduino p w) as [[r|e'] w2]; by intros [= ->].
  - intros r. into_component. destruct (connectToArduino p w) as [[r'|e] w2]; by intros [= ->].
  - intros e. into_component. destruct (reconnectToArduino g w) as [[r|e'] w2]; by intros [= ->].
  - intros r. into_component. destruct (reconnectToArduino g w) as [[r'|e] w2]; by intros [= ->].
  - apply rethrow_only.
  - destruct (disconnectFromArduino_returns event_fires w) as [Hreturn _]. into_component.
    by destruct (disconnectFromArduino event_fires w) as [[[]|e] w2].
Qed.

Lemma provider_operations_pass_through_witness :
  BluetoothContext.connect Examples.chooser_dismissed (BluetoothContext.mounted true)
    = (Throw (Rejection "NotFoundError" "User cancelled the requestDevice() chooser."),
       snd (connectToArduino Examples.chooser_dismissed (BluetoothContext.mounted true))) ∧
  BluetoothContext.device (host MoreExamples.provider_connected)
    = Some {| id := "lumi-01"; name := "Lumi"; connected := true |}.
Proof.
  pose proof (provider_operations_pass_through Examples.chooser_dismissed
                Examples.gatt_succeeds false Examples.text_48 (Resolved tt)
                (BluetoothContext.mounted true)) as (Hfailure & _).
  pose proof (provider_operations_pass_through Examples.all_succeed
                Examples.gatt_succeeds false Examples.text_48 (Resolved tt)
                (BluetoothContext.mounted true)) as (_ & Hsuccess & _).
  split.
  - apply Hfailure. reflexivity.
  - unfold MoreExamples.provider_connected.
    rewrite (Hsuccess {| id := "lumi-01"; name := "Lumi"; connected := true |} eq_refl).
    reflexivity.
Defined.



(** X12. The provider publishes the text of the latest notification, and
    nothing but a further notification replaces it: it is still published
    after any connecting, reconnecting, sending, disconnecting or loss of
    the link that follows. *)
Theorem provider_publishes_latest_data (before after : list BluetoothContext.Action)
    (supported : bool) (data : string) :
  forallb (λ a, negb (BluetoothContext.is_notification a)) after = true →
  BluetoothContext.lastReceivedData
    (host (BluetoothContext.session (before ++ BluetoothContext.Notification data :: after)
             (BluetoothContext.mounted supported)))
    = Some data.
Proof.
  intros Hafter.
  replace (before ++ BluetoothContext.Notification data :: after)
    with ((before ++ [BluetoothContext.Notification data]) ++ after)
    by (by rewrite <- app_assoc).
  induction after as [|a after IH] using rev_ind.
  - rewrite app_nil_r, session_snoc.
    destruct (session_keeps_provider_in_step before supported) as [Hcallbacks Hbacked].
    by destruct (act_keeps_provider_in_step _ (BluetoothContext.Notification data)
                   Hcallbacks Hbacked) as (_ & _ & ->).
  - rewrite forallb_app in Hafter. apply andb_prop in Hafter as [Hafter Ha].
    rewrite app_assoc, session_snoc.
    destruct (session_keeps_provider_in_step
                ((before ++ [BluetoothContext.Notification data]) ++ after) supported)
      as [Hcallbacks Hbacked].
    destruct (act_keeps_provider_in_step _ a Hcallbacks Hbacked) as (_ & _ & ->).
    destruct a; try (by apply IH). by cbn in Ha.
Qed.

Lemma provider_publishes_latest_data_witness :
  BluetoothContext.lastReceivedData
    (host (BluetoothContext.session
             ([BluetoothContext.DoConnect Examples.all_succeed;
               BluetoothContext.Notification "47"]
              ++ BluetoothContext.Notification "48"
                 :: [BluetoothContext.LinkLost; BluetoothContext.DoDisconnect false])
             (BluetoothContext.mounted true)))
    = Some "48".
Proof.
  exact (provider_publishes_latest_data
           [BluetoothContext.DoConnect Examples.all_succeed;
            BluetoothContext.Notification "47"]
           [BluetoothContext.LinkLost; BluetoothContext.DoDisconnect false]
           true "48" eq_refl).
Defined.

(** * The provider and the screen together *)

(** X13. The registry holds one handler for each key, so when both
    components have mounted, the one that registered last is the only one
    to hear of connections, disconnections and errors. If the screen
    registered last, these three events update the screen and leave the
    published state of the provider as it was, and only data notifications
    reach the provider; if the provider registered last, all four events
    update the provider and the screen is never told. *)
Theorem last_registration_hears_events (arg : CallbackArg) (w : World App.Components) :
  let screen_last :=
    setBluetoothCallbacks App.screen_registers
      (setBluetoothCallbacks App.provider_registers w) in
  let provider_last :=
    setBluetoothCallbacks App.provider_registers
      (setBluetoothCallbacks App.screen_registers w) in
  (host (notify "onConnected" arg screen_last)
     = App.of_screen BluetoothScreen.onConnected arg (host w) ∧
   host (notify "onDisconnected" arg screen_last)
     = App.of_screen BluetoothScreen.onDisconnected arg (host w) ∧
   host (notify "onError" arg screen_last)
     = App.of_screen BluetoothScreen.onError arg (host w) ∧
   host (notify "onDataReceived" arg screen_last)
     = App.of_provider BluetoothContext.onDataReceived arg (host w)) ∧
  (host (notify "onConnected" arg provider_last)
     = App.of_provider BluetoothContext.onConnected arg (host w) ∧
   host (notify "onDisconnected" arg provider_last)
     = App.of_provider BluetoothContext.onDisconnected arg (host w) ∧
   host (notify "onError" arg provider_last)
     = App.of_provider BluetoothContext.onError arg (host w) ∧
   host (notify "onDataReceived" arg provider_last)
     = App.of_provider BluetoothContext.onDataReceived arg (host w)) ∧
  App.provider (host (snd (onDisconnected screen_last))) = App.provider (host w) ∧
  App.screen (host (snd (onDisconnected provider_last))) = App.screen (host w).
Proof.
  intros screen_last provider_last.
  assert (∀ key f, App.screen_registers !! key = Some (Fn f) →
                   host (notify key arg screen_last) = f arg (host w)) as Hscreen.
  { intros key f Hkey. rewrite (notify_registered _ _ _ f); [done|].
    by apply lookup_union_Some_l. }
  assert (∀ key f, App.provider_registers !! key = Some (Fn f) →
                   host (notify key arg provider_last) = f arg (host w)) as Hprovider.
  { intros key f Hkey. rewrite (notify_registered _ _ _ f); [done|].
    by apply lookup_union_Some_l. }
  assert (host (notify "onDataReceived" arg screen_last)
          = App.of_provider BluetoothContext.onDataReceived arg (host w)) as Hdata.
  { rewrite (notify_registered _ _ _ (App.of_provider BluetoothContext.onDataReceived));
      [done|].
    subst screen_last. unfold setBluetoothCallbacks. cbn.
    rewrite lookup_union_r by done. by apply lookup_union_Some_l. }
  split; [|split; [|split]].
  - repeat split; (by apply Hscreen) || done.
  - repeat split; by apply Hprovider.
  - rewrite onDisconnected_returns. cbn [snd].
    change (host (clear_handles ?v)) with (host v).
    assert (∀ other, host (notify "onDisconnected" other screen_last)
                     = App.of_screen BluetoothScreen.onDisconnected other (host w)) as ->;
      [|done].
    intros other. rewrite (notify_registered _ _ _ (App.of_screen BluetoothScreen.onDisconnected));
      [done|by apply lookup_union_Some_l].
  - rewrite onDisconnected_returns. cbn [snd].
    change (host (clear_handles ?v)) with (host v).
    assert (∀ other, host (notify "onDisconnected" other provider_last)
                     = App.of_provider BluetoothContext.onDisconnected other (host w)) as ->;
      [|done].
    intros other.
    rewrite (notify_registered _ _ _ (App.of_provider BluetoothContext.onDisconnected));
      [done|by apply lookup_union_Some_l].
Qed.

(** * What the components show *)

(** X14. When the provider mounts on a module that is already connected
    ([isConnected()] true) it publishes the record of [getCurrentDevice()]
    and [isConnected = true] at once; on a module that holds no device, or
    a device whose link is down, it publishes nothing. Either way it
    registers its four handlers and leaves the handles alone. *)
Theorem provider_mount_takes_over (w : World BluetoothContext.Provider) :
  let w' := BluetoothContext.mount w in
  (isConnected w = Some true →
   BluetoothContext.device (host w') = getCurrentDevice w ∧
   BluetoothContext.connected (host w') = true) ∧
  (isConnected w ≠ Some true → host w' = host w) ∧
  (∀ key, is_Some (BluetoothContext.handlers !! key) →
          callbacks w' !! key = BluetoothContext.handlers !! key) ∧
  (bluetoothDevice w' = bluetoothDevice w ∧ bluetoothServer w' = bluetoothServer w ∧
   bluetoothService w' = bluetoothService w ∧
   bluetoothCharacteristic w' = bluetoothCharacteristic w).
Proof.
  intros w'. subst w'. unfold BluetoothContext.mount, isConnected, getCurrentDevice. cbn.
  destruct (bluetoothDevice w) as [d|] eqn:Hd; cbn.
  - rewrite orb_false_r. destruct (gatt_connected d); cbn; rewrite ?Hd.
    + repeat split; try done. intros key [v Hv]. rewrite Hv. by apply lookup_union_Some_l.
    + repeat split; try done. intros key [v Hv]. rewrite Hv. by apply lookup_union_Some_l.
  - rewrite ?Hd. repeat split; try done.
    intros key [v Hv]. rewrite Hv. by apply lookup_union_Some_l.
Qed.

Lemma provider_mount_takes_over_witness :
  BluetoothContext.device
    (host (BluetoothContext.mount
             (snd (connectToArduino Examples.all_succeed
                     (initial true BluetoothContext.first_render)))))
    = Some {| id := "lumi-01"; name := "Lumi"; connected := true |} ∧
  host (BluetoothContext.mount
          (snd (connectToArduino MoreExamples.nano_unreachable
                  (initial true BluetoothContext.first_render))))
    = BluetoothContext.first_render.
Proof.
  split.
  - rewrite (proj1 (proj1 (provider_mount_takes_over
                             (snd (connectToArduino Examples.all_succeed
                                     (initial true BluetoothContext.first_render))))
                      eq_refl)).
    reflexivity.
  - rewrite (proj1 (proj2 (provider_mount_takes_over
                             (snd (connectToArduino MoreExamples.nano_unreachable
                                     (initial true BluetoothContext.first_render)))))
               ltac:(discriminate)).
    reflexivity.
Defined.

(** X15. After a failed [handleConnect] the screen reads "Connection
    failed" and, under it, the message of the error thrown; only when that
    message is empty it reads "Please try again". *)
Theorem failed_connect_is_shown (p : ConnectAnswers) (e : JsError)
    (w : World BluetoothScreen.Screen) :
  fst (connectToArduino p w) = Throw e →
  let scr := host (snd (BluetoothScreen.handleConnect p w)) in
  BluetoothScreen.getStatusText scr = "Connection failed" ∧
  (message e ≠ "" → BluetoothScreen.getStatusSubtext scr = message e) ∧
  (message e = "" → BluetoothScreen.getStatusSubtext scr = "Please try again").
Proof.
  intros Hthrown scr. subst scr. into_component.
  match goal with |- context [connectToArduino p ?x] => set (w1 := x) end.
  assert (fst (connectToArduino p w1) = Throw e) as Hsame.
  { rewrite <- Hthrown. by apply connectToArduino_completion. }
  destruct (connectToArduino p w1) as [[r|e'] w2]; cbn in Hsame; simplify_eq.
  unfold BluetoothScreen.getStatusText, BluetoothScreen.getStatusSubtext. cbn.
  split; [done|]. by destruct (message e).
Qed.

Lemma failed_connect_is_shown_witness :
  BluetoothScreen.getStatusSubtext
    (host (snd (BluetoothScreen.handleConnect Examples.chooser_dismissed
                  (BluetoothScreen.mounted true))))
    = "User cancelled the requestDevice() chooser.".
Proof.
  apply (proj1 (proj2 (failed_connect_is_shown Examples.chooser_dismissed
                         (Rejection "NotFoundError"
                            "User cancelled the requestDevice() chooser.")
                         (BluetoothScreen.mounted true) eq_refl))).
  discriminate.
Defined.

(** * Calls that are suspended at their awaits *)

#[global] Arguments gatt_became_connected : simpl never.

(** Unfolds a suspended run down to the state transformers it is made of. *)
Ltac expose_suspended :=
  unfold connectToArduino_interleaved, reconnectToArduino_interleaved,
    gatt_connect_held_during, await_during in *;
  expose.

(** Splits [keeps_handles] into its four equations. *)
Ltac handle_fields H :=
  pose proof (λ v, proj1 (H v));
  pose proof (λ v, proj1 (proj2 (H v)));
  pose proof (λ v, proj1 (proj2 (proj2 (H v))));
  pose proof (λ v, proj2 (proj2 (proj2 (H v))));
  clear H.

Section Suspended.
Context {Host : Type}.
Implicit Types (w v : World Host) (during : World Host → World Host).

Lemma gatt_became_connected_kept during d v :
  keeps_device during → bluetoothDevice v = Some d →
  bluetoothDevice (gatt_became_connected (dev_id d) (during v))
    = Some (with_gatt_connected true d).
Proof.
  intros Hkept Hd. unfold gatt_became_connected. by rewrite Hkept, Hd, String.eqb_refl.
Qed.

Lemma gatt_became_connected_bluetoothServer device v :
  bluetoothServer (gatt_became_connected device v) = bluetoothServer v.
Proof.
  unfold gatt_became_connected. destruct (bluetoothDevice v) as [d|]; [|done].
  by destruct (String.eqb (dev_id d) device).
Qed.

Lemma gatt_became_connected_bluetoothService device v :
  bluetoothService (gatt_became_connected device v) = bluetoothService v.
Proof.
  unfold gatt_became_connected. destruct (bluetoothDevice v) as [d|]; [|done].
  by destruct (String.eqb (dev_id d) device).
Qed.

Lemma gatt_became_connected_bluetoothCharacteristic device v :
  bluetoothCharacteristic (gatt_became_connected device v) = bluetoothCharacteristic v.
Proof.
  unfold gatt_became_connected. destruct (bluetoothDevice v) as [d|]; [|done].
  by destruct (String.eqb (dev_id d) device).
Qed.

(** When nothing runs during the suspensions, the suspended runs are the
    uninterrupted ones. *)
Lemma connectToArduino_undisturbed p w :
  connectToArduino_interleaved undisturbed p w = connectToArduino p w.
Proof.
  destruct p as [rd [gc gps gch sn]]. expose_suspended.
  destruct (navigator_bluetooth w) eqn:Hnav; cbn; rewrite ?Hnav; cbn; [|done].
  destruct rd as [chosen|]; cbn; [|done].
  destruct gc as [server|]; cbn; [|done].
  unfold gatt_became_connected. cbn. rewrite String.eqb_refl. cbn.
  destruct gps as [service|]; cbn; [|done].
  destruct gch as [characteristic|]; cbn; [|done].
  by destruct sn as [[]|].
Qed.

Lemma reconnectToArduino_undisturbed g w :
  reconnectToArduino_interleaved undisturbed_gatt g w = reconnectToArduino g w.
Proof.
  destruct g as [gc gps gch sn]. expose_suspended.
  destruct (bluetoothDevice w) as [d|] eqn:Hd; cbn; rewrite ?Hd; cbn; [|done].
  destruct gc as [server|]; cbn; [|done].
  unfold gatt_became_connected. cbn. rewrite Hd, String.eqb_refl. cbn.
  destruct gps as [service|]; cbn; [|done].
  destruct gch as [characteristic|]; cbn; [|done].
  by destruct sn as [[]|].
Qed.

(** A failing [connectToArduino] whose chooser resolved, when nothing that
    ran during the GATT steps assigned the device handle. *)
Lemma interleaved_failure_keeps_device (s : ConnectSuspensions Host) p chosen e w :
  isBluetoothSupported w = true →
  requestDevice p = Resolved chosen →
  keeps_device (during_gatt_connect (during_gatt s)) →
  keeps_device (during_getPrimaryService (during_gatt s)) →
  keeps_device (during_getCharacteristic (during_gatt s)) →
  keeps_device (during_startNotifications (during_gatt s)) →
  fst (connectToArduino_interleaved s p w) = Throw e →
  bluetoothDevice (snd (connectToArduino_interleaved s p w)) = Some chosen ∨
  bluetoothDevice (snd (connectToArduino_interleaved s p w))
    = Some (with_gatt_connected true chosen).
Proof.
  intros Hsupported Hrd H1 H2 H3 H4.
  destruct s as [d0 [d1 d2 d3 d4]], p as [rd [gc gps gch sn]].
  cbn in Hrd, H1, H2, H3, H4. subst rd.
  assert (navigator_bluetooth w = true) as Hnav.
  { unfold isBluetoothSupported in Hsupported. by destruct (navigator_bluetooth w). }
  clear Hsupported.
  expose_suspended. rewrite Hnav. cbn. rewrite Hnav. cbn.
  destruct gc as [server|]; cbn.
  2:{ intros _. left. through_notify. by rewrite H1. }
  assert (∀ v, bluetoothDevice v = Some chosen →
               bluetoothDevice (gatt_became_connected (dev_id chosen) (d1 v))
               = Some (with_gatt_connected true chosen)) as Hgc
    by (intros; by apply gatt_became_connected_kept).
  destruct gps as [service|]; cbn.
  2:{ intros _. right. through_notify. rewrite H2. cbn. by apply Hgc. }
  destruct gch as [characteristic|]; cbn.
  2:{ intros _. right. through_notify. rewrite H3. cbn. rewrite H2. cbn. by apply Hgc. }
  match goal with
  | |- context [match bluetoothCharacteristic ?v with _ => _ end] => set (v4 := v)
  end.
  assert (bluetoothDevice v4 = Some (with_gatt_connected true chosen)) as Hd4.
  { subst v4. rewrite H4. cbn. rewrite H3. cbn. rewrite H2. cbn. by apply Hgc. }
  destruct sn as [[]|]; cbn.
  2:{ intros _. right. by through_notify. }
  destruct (bluetoothCharacteristic v4) as [c4|]; cbn.
  - rewrite Hd4. cbn. discriminate.
  - intros _. right. by through_notify.
Qed.

Lemma reconnect_interleaved_without_device (s : GattSuspensions Host) g w :
  bluetoothDevice w = None → reconnectToArduino_interleaved s g w = (Throw NoPriorDevice, w).
Proof. intros Hd. expose_suspended. by rewrite Hd. Qed.

(** With a device handle, whatever [reconnectToArduino] throws is a
    rejection of the platform or a [TypeError], never the no-prior-device
    error. *)
Lemma reconnect_interleaved_with_device (s : GattSuspensions Host) g w :
  is_Some (bluetoothDevice w) →
  fst (reconnectToArduino_interleaved s g w) ≠ Throw NoPriorDevice.
Proof.
  intros [d Hd]. destruct s as [d1 d2 d3 d4], g as [gc gps gch sn].
  expose_suspended. rewrite Hd. cbn. rewrite Hd. cbn.
  destruct gc as [server|]; cbn; [|discriminate].
  destruct gps as [service|]; cbn; [|discriminate].
  destruct gch as [characteristic|]; cbn; [|discriminate].
  match goal with
  | |- context [match bluetoothCharacteristic ?v with _ => _ end] => set (v4 := v)
  end.
  destruct sn as [[]|]; cbn; [|discriminate].
  destruct (bluetoothCharacteristic v4) as [c4|]; cbn; [|discriminate].
  destruct (bluetoothDevice v4) as [d4'|]; cbn; discriminate.
Qed.

(** A step that is rejected after the link was lost during its suspension
    leaves no handle. *)
Lemma link_loss_clears during v key arg :
  ends_with_link_loss during → handles_null (notify key arg (during v)).
Proof.
  intros [before Hduring]. unfold handles_null. through_notify.
  rewrite Hduring, onDisconnected_returns. by cbn.
Qed.

(** The last statements of a successful [connectToArduino] or
    [reconnectToArduino], from the state [v] in which the last [await]
    resumes. *)
Lemma returned_record v d c r (w' : World Host) :
  w' = notify "onConnected" (ArgDevice r) (emit (ListenValueChanged c) v) →
  bluetoothDevice v = Some d → bluetoothCharacteristic v = Some c →
  r = {| id := dev_id d; name := name_or_Arduino (dev_name d); connected := true |} →
  connected r = true ∧ name r ≠ "" ∧
  (∃ d', bluetoothDevice w' = Some d' ∧ id r = dev_id d' ∧
         name r = name_or_Arduino (dev_name d')) ∧
  (∃ c', bluetoothCharacteristic w' = Some c' ∧
         ∀ data writeValue,
           sendToArduino data writeValue w'
             = (awaited writeValue, emit (WriteValue c' (TextEncoder_encode data)) w')) ∧
  (∀ f, callbacks w' !! "onConnected" = Some (Fn f) →
        last (log w') = Some (Invoked "onConnected" (ArgDevice r))) ∧
  (gatt_connected d = true → getCurrentDevice w' = Some r ∧ isConnected w' = Some true).
Proof.
  intros -> Hd Hc ->. split; [done|]. split; [apply name_or_Arduino_nonempty|].
  split; [exists d; by through_notify|]. split.
  - exists c. split; [by through_notify|]. intros data writeValue.
    apply sendToArduino_connected. by through_notify.
  - split.
    + intros f. rewrite notify_callbacks. intros Hf.
      rewrite (notify_registered _ _ _ f Hf). cbn. apply last_snoc.
    + intros Hflag. unfold getCurrentDevice, isConnected. through_notify. cbn.
      rewrite Hd, Hflag. by cbn.
Qed.

End Suspended.

(** Reads a handle of the state a suspended run ends in, when what ran
    during its suspensions kept the handles. *)
Ltac read_handles :=
  repeat (progress
    (repeat match goal with
            | Hkept : ∀ v : World _, _ = _ |- _ => rewrite !Hkept
            | |- context [bluetoothDevice (gatt_became_connected (dev_id ?c) (?d ?x))] =>
                rewrite (gatt_became_connected_kept d c x)
                  by (first [assumption | cbn; reflexivity])
            end;
     rewrite ?gatt_became_connected_bluetoothServer,
       ?gatt_became_connected_bluetoothService,
       ?gatt_became_connected_bluetoothCharacteristic;
     through_notify; cbn)).

(** ** A failed connection attempt restores nothing *)

(** C10 as stated fails: the GATT connection is made, the link drops while
    the service is looked up, the platform dispatches the disconnection
    event to the listener that [connectToArduino] installed and rejects the
    lookup. The call fails after the chooser resolved, yet the listener has
    cleared the device handle: [getCurrentDevice()] returns [null] and a
    following [reconnect()] throws the no-prior-device error. *)
Lemma connect_failure_after_link_loss_holds_no_device :
  fst (connectToArduino_interleaved MoreExamples.link_drops MoreExamples.link_drops_answers
         Examples.listening)
    = Throw (Rejection "NetworkError" "GATT Server is disconnected.") ∧
  getCurrentDevice
    (snd (connectToArduino_interleaved MoreExamples.link_drops
            MoreExamples.link_drops_answers Examples.listening)) = None ∧
  fst (reconnectToArduino Examples.gatt_succeeds
         (snd (connectToArduino_interleaved MoreExamples.link_drops
                 MoreExamples.link_drops_answers Examples.listening)))
    = Throw NoPriorDevice.
Proof. repeat split. Qed.

(** C10, as the code has it. The error branch of [connect()] restores
    nothing and clears nothing. When [connect()] fails after the chooser
    resolved and nothing that ran while it was suspended at its GATT steps
    assigned the device handle, the module still holds the chosen device
    (with [gatt.connected] set if the GATT connection had been made):
    [getCurrentDevice()] returns its record and a following [reconnect()]
    does not throw the no-prior-device error. When instead the rejected step
    was suspended while the link was lost, the disconnection listener has
    already cleared the four handles: [getCurrentDevice()] returns [null]
    and a following [reconnect()] throws the no-prior-device error. *)
Theorem connect_failure_restores_nothing {Host} (s : ConnectSuspensions Host)
    (p : ConnectAnswers) (chosen : PlatformDevice) (e : JsError) (w : World Host) :
  isBluetoothSupported w = true →
  requestDevice p = Resolved chosen →
  fst (connectToArduino_interleaved s p w) = Throw e →
  let w' := snd (connectToArduino_interleaved s p w) in
  let cleared :=
    handles_null w' ∧ getCurrentDevice w' = None ∧
    ∀ s' g, reconnectToArduino_interleaved s' g w' = (Throw NoPriorDevice, w') in
  (keeps_device (during_gatt_connect (during_gatt s)) →
   keeps_device (during_getPrimaryService (during_gatt s)) →
   keeps_device (during_getCharacteristic (during_gatt s)) →
   keeps_device (during_startNotifications (during_gatt s)) →
   (bluetoothDevice w' = Some chosen ∨
    bluetoothDevice w' = Some (with_gatt_connected true chosen)) ∧
   (∃ record, getCurrentDevice w' = Some record ∧ id record = dev_id chosen ∧
              name record = name_or_Arduino (dev_name chosen)) ∧
   (∀ s' g, fst (reconnectToArduino_interleaved s' g w') ≠ Throw NoPriorDevice)) ∧
  (∀ n m, gatt_connect (gatt p) = Rejected n m →
          ends_with_link_loss (during_gatt_connect (during_gatt s)) → cleared) ∧
  (∀ server n m,
     gatt_connect (gatt p) = Resolved server → getPrimaryService (gatt p) = Rejected n m →
     ends_with_link_loss (during_getPrimaryService (during_gatt s)) → cleared) ∧
  (∀ server service n m,
     gatt_connect (gatt p) = Resolved server → getPrimaryService (gatt p) = Resolved service →
     getCharacteristic (gatt p) = Rejected n m →
     ends_with_link_loss (during_getCharacteristic (during_gatt s)) → cleared) ∧
  (∀ server service characteristic n m,
     gatt_connect (gatt p) = Resolved server → getPrimaryService (gatt p) = Resolved service →
     getCharacteristic (gatt p) = Resolved characteristic →
     startNotifications (gatt p) = Rejected n m →
     ends_with_link_loss (during_startNotifications (during_gatt s)) → cleared).
Proof.
  intros Hsupported Hrd Hthrown w' cleared.
  assert (handles_null w' → cleared) as Hcleared.
  { intros Hnull. split; [done|]. split; [by apply handles_null_getCurrentDevice|].
    intros s' g. apply reconnect_interleaved_without_device. apply Hnull. }
  assert (navigator_bluetooth w = true) as Hnav.
  { unfold isBluetoothSupported in Hsupported. by destruct (navigator_bluetooth w). }
  split; [|split; [|split; [|split]]].
  - intros H1 H2 H3 H4.
    pose proof (interleaved_failure_keeps_device s p chosen e w
                  Hsupported Hrd H1 H2 H3 H4 Hthrown) as Hkept.
    fold w' in Hkept. split; [done|]. split.
    + unfold getCurrentDevice. destruct Hkept as [-> | ->]; eexists; by repeat split.
    + intros s' g. apply reconnect_interleaved_with_device.
      destruct Hkept as [-> | ->]; by eexists.
  - intros n m Hgc Hlost. apply Hcleared. subst w'. clear Hthrown.
    destruct s as [d0 [d1 d2 d3 d4]], p as [rd [gc gps gch sn]]. cbn in Hrd, Hgc, Hlost.
    subst rd gc. expose_suspended. rewrite Hnav. cbn. rewrite Hnav. cbn.
    by apply link_loss_clears.
  - intros server n m Hgc Hgps Hlost. apply Hcleared. subst w'. clear Hthrown.
    destruct s as [d0 [d1 d2 d3 d4]], p as [rd [gc gps gch sn]].
    cbn in Hrd, Hgc, Hgps, Hlost.
    subst rd gc gps. expose_suspended. rewrite Hnav. cbn. rewrite Hnav. cbn.
    by apply link_loss_clears.
  - intros server service n m Hgc Hgps Hgch Hlost. apply Hcleared. subst w'. clear Hthrown.
    destruct s as [d0 [d1 d2 d3 d4]], p as [rd [gc gps gch sn]].
    cbn in Hrd, Hgc, Hgps, Hgch, Hlost.
    subst rd gc gps gch. expose_suspended. rewrite Hnav. cbn. rewrite Hnav. cbn.
    by apply link_loss_clears.
  - intros server service characteristic n m Hgc Hgps Hgch Hsn Hlost.
    apply Hcleared. subst w'. clear Hthrown.
    destruct s as [d0 [d1 d2 d3 d4]], p as [rd [gc gps gch sn]].
    cbn in Hrd, Hgc, Hgps, Hgch, Hsn, Hlost.
    subst rd gc gps gch sn. expose_suspended. rewrite Hnav. cbn. rewrite Hnav. cbn.
    by apply link_loss_clears.
Qed.

Lemma connect_failure_restores_nothing_witness :
  (∃ record,
     getCurrentDevice
       (snd (connectToArduino_interleaved MoreExamples.notified_meanwhile
               Examples.subscribe_rejected Examples.listening)) = Some record ∧
     id record = "lumi-01") ∧
  handles_null
    (snd (connectToArduino_interleaved MoreExamples.link_drops
            MoreExamples.link_drops_answers Examples.listening)).
Proof.
  split.
  - destruct (proj1 (connect_failure_restores_nothing MoreExamples.notified_meanwhile
                       Examples.subscribe_rejected Examples.lumi
                       (Rejection "NotSupportedError" "GATT operation not permitted.")
                       Examples.listening eq_refl eq_refl eq_refl)
                (λ v, eq_refl) (λ v, eq_refl)
                (λ v, notify_bluetoothDevice "onDataReceived" (ArgData "48") v)
                (λ v, eq_refl))
      as (_ & (record & Hrecord & Hid & _) & _).
    by exists record.
  - apply (proj1 (proj2 (proj2 (connect_failure_restores_nothing MoreExamples.link_drops
                       MoreExamples.link_drops_answers Examples.lumi
                       (Rejection "NetworkError" "GATT Server is disconnected.")
                       Examples.listening eq_refl eq_refl eq_refl)))
             Examples.server1 "NetworkError" "GATT Server is disconnected." eq_refl eq_refl).
    exists (λ w, w). intros v. reflexivity.
Defined.

(** ** What a successful connection establishes *)

(** X3. Whenever [connectToArduino] returns a record, whatever ran while it
    was suspended: [connected] of the record is [true] and its name is not
    empty; the record carries the id and the name of the device the module
    holds on return; a characteristic is held, on which [sendToArduino]
    makes its write instead of throwing the not-connected error; and a
    registered [onConnected] handler has been called with that record, as
    the last event of the run. If moreover nothing that ran during the
    GATT steps assigned the device handle, [getCurrentDevice()] returns
    that same record and [isConnected()] is true. *)
Theorem connect_return_establishes {Host} (s : ConnectSuspensions Host)
    (p : ConnectAnswers) (r : BluetoothDevice) (w : World Host) :
  fst (connectToArduino_interleaved s p w) = Return r →
  let w' := snd (connectToArduino_interleaved s p w) in
  connected r = true ∧ name r ≠ "" ∧
  (∃ d, bluetoothDevice w' = Some d ∧ id r = dev_id d ∧
        name r = name_or_Arduino (dev_name d)) ∧
  (∃ c, bluetoothCharacteristic w' = Some c ∧
        ∀ data writeValue,
          sendToArduino data writeValue w'
            = (awaited writeValue, emit (WriteValue c (TextEncoder_encode data)) w')) ∧
  (∀ f, callbacks w' !! "onConnected" = Some (Fn f) →
        last (log w') = Some (Invoked "onConnected" (ArgDevice r))) ∧
  (keeps_device (during_gatt_connect (during_gatt s)) →
   keeps_device (during_getPrimaryService (during_gatt s)) →
   keeps_device (during_getCharacteristic (during_gatt s)) →
   keeps_device (during_startNotifications (during_gatt s)) →
   getCurrentDevice w' = Some r ∧ isConnected w' = Some true).
Proof.
  intros Hreturn w'. subst w'. revert Hreturn.
  destruct s as [d0 [d1 d2 d3 d4]], p as [rd [gc gps gch sn]]. expose_suspended.
  destruct (navigator_bluetooth w) eqn:Hnav; cbn; [|discriminate]. rewrite Hnav. cbn.
  destruct rd as [chosen|]; cbn; [|discriminate].
  destruct gc as [server|]; cbn; [|discriminate].
  destruct gps as [service|]; cbn; [|discriminate].
  destruct gch as [characteristic|]; cbn; [|discriminate].
  match goal with
  | |- context [match bluetoothCharacteristic ?v with _ => _ end] => set (v4 := v)
  end.
  destruct sn as [[]|]; cbn; [|discriminate].
  destruct (bluetoothCharacteristic v4) as [c4|] eqn:Hc4; cbn; [|discriminate].
  destruct (bluetoothDevice v4) as [d4'|] eqn:Hd4; cbn; [|discriminate].
  intros [= Hr]. symmetry in Hr.
  destruct (returned_record v4 d4' c4 r _ ltac:(by rewrite Hr) Hd4 Hc4 Hr)
    as (Hconnected & Hname & Hdevice & Hsend & Hlast & Hflag).
  rewrite <- Hr. do 5 (split; [done|]).
  intros H1 H2 H3 H4. apply Hflag.
  assert (bluetoothDevice v4 = Some (with_gatt_connected true chosen)) as Hkept.
  { subst v4. rewrite H4. cbn. rewrite H3. cbn. rewrite H2. cbn.
    by apply gatt_became_connected_kept. }
  rewrite Hd4 in Hkept. by injection Hkept as ->.
Qed.

Lemma connect_return_establishes_witness :
  getCurrentDevice
    (snd (connectToArduino_interleaved MoreExamples.notified_meanwhile
            Examples.all_succeed Examples.loaded))
    = Some {| id := "lumi-01"; name := "Lumi"; connected := true |} ∧
  isConnected
    (snd (connectToArduino_interleaved MoreExamples.notified_meanwhile
            Examples.all_succeed Examples.loaded)) = Some true.
Proof.
  exact (proj2 (proj2 (proj2 (proj2 (proj2
           (connect_return_establishes MoreExamples.notified_meanwhile Examples.all_succeed
              {| id := "lumi-01"; name := "Lumi"; connected := true |}
              Examples.loaded eq_refl)))))
           (λ v, eq_refl) (λ v, eq_refl)
           (λ v, notify_bluetoothDevice "onDataReceived" (ArgData "48") v)
           (λ v, eq_refl)).
Defined.

(** X4. Whenever [reconnectToArduino] returns a record, whatever ran while
    it was suspended: [connected] of the record is [true], its name is not
    empty, it carries the id and the name of the device the module holds on
    return, and a characteristic is held on which [sendToArduino] makes its
    write. If moreover nothing that ran during the GATT steps assigned the
    device handle, the record is that of the device that was held when the
    call was made, [getCurrentDevice()] returns the same record and
    [isConnected()] is true. *)
Theorem reconnect_return_establishes {Host} (s : GattSuspensions Host)
    (g : GattAnswers) (r : BluetoothDevice) (w : World Host) :
  fst (reconnectToArduino_interleaved s g w) = Return r →
  let w' := snd (reconnectToArduino_interleaved s g w) in
  connected r = true ∧ name r ≠ "" ∧
  (∃ d, bluetoothDevice w' = Some d ∧ id r = dev_id d ∧
        name r = name_or_Arduino (dev_name d)) ∧
  (∃ c, bluetoothCharacteristic w' = Some c ∧
        ∀ data writeValue,
          sendToArduino data writeValue w'
            = (awaited writeValue, emit (WriteValue c (TextEncoder_encode data)) w')) ∧
  (keeps_device (during_gatt_connect s) → keeps_device (during_getPrimaryService s) →
   keeps_device (during_getCharacteristic s) → keeps_device (during_startNotifications s) →
   (∃ d, bluetoothDevice w = Some d ∧
         r = {| id := dev_id d; name := name_or_Arduino (dev_name d); connected := true |}) ∧
   getCurrentDevice w' = Some r ∧ isConnected w' = Some true).
Proof.
  intros Hreturn w'. subst w'. revert Hreturn.
  destruct s as [d1 d2 d3 d4], g as [gc gps gch sn]. expose_suspended.
  destruct (bluetoothDevice w) as [held|] eqn:Hheld; cbn; [|discriminate].
  rewrite Hheld. cbn.
  destruct gc as [server|]; cbn; [|discriminate].
  destruct gps as [service|]; cbn; [|discriminate].
  destruct gch as [characteristic|]; cbn; [|discriminate].
  match goal with
  | |- context [match bluetoothCharacteristic ?v with _ => _ end] => set (v4 := v)
  end.
  destruct sn as [[]|]; cbn; [|discriminate].
  destruct (bluetoothCharacteristic v4) as [c4|] eqn:Hc4; cbn; [|discriminate].
  destruct (bluetoothDevice v4) as [d4'|] eqn:Hd4; cbn; [|discriminate].
  intros [= Hr]. symmetry in Hr.
  destruct (returned_record v4 d4' c4 r _ ltac:(by rewrite Hr) Hd4 Hc4 Hr)
    as (Hconnected & Hname & Hdevice & Hsend & Hlast & Hflag).
  rewrite <- Hr. do 4 (split; [done|]).
  intros H1 H2 H3 H4.
  assert (bluetoothDevice v4 = Some (with_gatt_connected true held)) as Hkept.
  { subst v4. rewrite H4. cbn. rewrite H3. cbn. rewrite H2. cbn.
    by apply gatt_became_connected_kept. }
  rewrite Hd4 in Hkept. injection Hkept as ->.
  split; [by exists held|]. by apply Hflag.
Qed.

Lemma reconnect_return_establishes_witness :
  getCurrentDevice
    (snd (reconnectToArduino_interleaved undisturbed_gatt Examples.gatt_succeeds
            (snd (connectToArduino Examples.subscribe_rejected Examples.loaded))))
    = Some {| id := "lumi-01"; name := "Lumi"; connected := true |}.
Proof.
  destruct (reconnect_return_establishes undisturbed_gatt Examples.gatt_succeeds
              {| id := "lumi-01"; name := "Lumi"; connected := true |}
              (snd (connectToArduino Examples.subscribe_rejected Examples.loaded)) eq_refl)
    as (_ & _ & _ & _ & Hundisturbed).
  destruct (Hundisturbed (λ v, eq_refl) (λ v, eq_refl) (λ v, eq_refl) (λ v, eq_refl))
    as (_ & Hcurrent & _).
  exact Hcurrent.
Defined.

(** ** What a failed connection leaves behind *)

(** X5. When nothing that runs while [connectToArduino] is suspended assigns
    a handle (no disconnection event, no other call that connects or
    disconnects), a failing [connectToArduino] overwrites the handles it got
    to and leaves the others as they were. When the chooser is refused the
    four handles, and so an earlier connection, are untouched. When the
    chooser resolves and a later step is rejected, the device handle is the
    chosen device while the handles after the rejected step are still those
    of before the call, possibly of another device; only a rejected
    subscription leaves all four of the new device. *)
Theorem connect_failure_leaves_unreached_handles {Host} (s : ConnectSuspensions Host)
    (p : ConnectAnswers) (w : World Host) :
  isBluetoothSupported w = true →
  keeps_handles (during_requestDevice s) →
  keeps_handles (during_gatt_connect (during_gatt s)) →
  keeps_handles (during_getPrimaryService (during_gatt s)) →
  keeps_handles (during_getCharacteristic (during_gatt s)) →
  keeps_handles (during_startNotifications (during_gatt s)) →
  let w' := snd (connectToArduino_interleaved s p w) in
  (∀ n m, requestDevice p = Rejected n m →
     bluetoothDevice w' = bluetoothDevice w ∧ bluetoothServer w' = bluetoothServer w ∧
     bluetoothService w' = bluetoothService w ∧
     bluetoothCharacteristic w' = bluetoothCharacteristic w) ∧
  (∀ chosen n m,
     requestDevice p = Resolved chosen → gatt_connect (gatt p) = Rejected n m →
     bluetoothDevice w' = Some chosen ∧ bluetoothServer w' = bluetoothServer w ∧
     bluetoothService w' = bluetoothService w ∧
     bluetoothCharacteristic w' = bluetoothCharacteristic w) ∧
  (∀ chosen server n m,
     requestDevice p = Resolved chosen → gatt_connect (gatt p) = Resolved server →
     getPrimaryService (gatt p) = Rejected n m →
     bluetoothDevice w' = Some (with_gatt_connected true chosen) ∧
     bluetoothServer w' = Some server ∧ bluetoothService w' = bluetoothService w ∧
     bluetoothCharacteristic w' = bluetoothCharacteristic w) ∧
  (∀ chosen server service n m,
     requestDevice p = Resolved chosen → gatt_connect (gatt p) = Resolved server →
     getPrimaryService (gatt p) = Resolved service →
     getCharacteristic (gatt p) = Rejected n m →
     bluetoothDevice w' = Some (with_gatt_connected true chosen) ∧
     bluetoothServer w' = Some server ∧ bluetoothService w' = Some service ∧
     bluetoothCharacteristic w' = bluetoothCharacteristic w) ∧
  (∀ chosen server service characteristic n m,
     requestDevice p = Resolved chosen → gatt_connect (gatt p) = Resolved server →
     getPrimaryService (gatt p) = Resolved service →
     getCharacteristic (gatt p) = Resolved characteristic →
     startNotifications (gatt p) = Rejected n m →
     bluetoothDevice w' = Some (with_gatt_connected true chosen) ∧
     bluetoothServer w' = Some server ∧ bluetoothService w' = Some service ∧
     bluetoothCharacteristic w' = Some characteristic).
Proof.
  intros Hsupported H0 H1 H2 H3 H4 w'. subst w'.
  destruct s as [d0 [d1 d2 d3 d4]], p as [rd [gc gps gch sn]].
  cbn [requestDevice gatt gatt_connect getPrimaryService getCharacteristic
       startNotifications during_requestDevice during_gatt during_gatt_connect
       during_getPrimaryService during_getCharacteristic during_startNotifications] in *.
  unfold keeps_handles in *.
  handle_fields H0. handle_fields H1. handle_fields H2. handle_fields H3. handle_fields H4.
  assert (navigator_bluetooth w = true) as Hnav.
  { unfold isBluetoothSupported in Hsupported. by destruct (navigator_bluetooth w). }
  clear Hsupported.
  repeat split; intros; simplify_eq; expose_suspended; rewrite Hnav; cbn; rewrite Hnav;
    cbn; read_handles; done.
Qed.

Lemma connect_failure_leaves_unreached_handles_witness :
  let w := snd (connectToArduino_interleaved undisturbed MoreExamples.nano_unreachable
                  MoreExamples.connected_to_lumi) in
  getCurrentDevice w = Some {| id := "nano-02"; name := "Arduino"; connected := false |} ∧
  bluetoothCharacteristic w = Some Examples.characteristic1 ∧
  bluetoothCharacteristic w = bluetoothCharacteristic MoreExamples.connected_to_lumi.
Proof.
  intros w.
  destruct (proj1 (proj2 (connect_failure_leaves_unreached_handles
                            undisturbed MoreExamples.nano_unreachable
                            MoreExamples.connected_to_lumi eq_refl
                            (λ v, conj eq_refl (conj eq_refl (conj eq_refl eq_refl)))
                            (λ v, conj eq_refl (conj eq_refl (conj eq_refl eq_refl)))
                            (λ v, conj eq_refl (conj eq_refl (conj eq_refl eq_refl)))
                            (λ v, conj eq_refl (conj eq_refl (conj eq_refl eq_refl)))
                            (λ v, conj eq_refl (conj eq_refl (conj eq_refl eq_refl)))))
              MoreExamples.nano "NetworkError" "Connection attempt failed." eq_refl eq_refl)
    as (Hdevice & _ & _ & Hcharacteristic).
  split; [|split].
  - unfold getCurrentDevice. subst w. rewrite Hdevice. reflexivity.
  - subst w. rewrite Hcharacteristic. reflexivity.
  - exact Hcharacteristic.
Defined.
